(** * Hospital queue registration: a shallow embedding of [app.py]

    The Flask application keeps two SQL tables ([departments] and
    [patients]) and answers HTTP requests by reading and writing them.  The
    tables are modelled as lists of rows in insertion order, every handler
    as a function from the database (and the request payload) to the new
    database and the response, and Python integers as [Z]. *)

From Stdlib Require Import ZArith List Bool String Ascii Lia.
Import ListNotations.
Local Open Scope Z_scope.

(** ** Python strings

    A Python [str] is a sequence of Unicode code points. *)

Module PyStr.

Definition t := list N.

(** A literal of the source, written with ASCII characters only. *)
Definition lit (s : string) : t :=
  map N_of_ascii (list_ascii_of_string s).

Fixpoint eqb (a b : t) : bool :=
  match a, b with
  | [], [] => true
  | x :: a', y :: b' => N.eqb x y && eqb a' b'
  | _, _ => false
  end.

(** [str.isspace] on one code point: the white-space table of CPython. *)
Definition isspace (c : N) : bool :=
  (((9 <=? c) && (c <=? 13)) || ((28 <=? c) && (c <=? 32))
   || (c =? 133) || (c =? 160) || (c =? 5760)
   || ((8192 <=? c) && (c <=? 8202))
   || (c =? 8232) || (c =? 8233) || (c =? 8239) || (c =? 8287)
   || (c =? 12288))%N.

Fixpoint lstrip (s : t) : t :=
  match s with
  | [] => []
  | c :: s' => if isspace c then lstrip s' else s
  end.

Fixpoint rstrip (s : t) : t :=
  match s with
  | [] => []
  | c :: s' =>
      match rstrip s' with
      | [] => if isspace c then [] else [c]
      | r => c :: r
      end
  end.

(** [s.strip()] with no argument. *)
Definition strip (s : t) : t := rstrip (lstrip s).

(** Truth value of a string: [not s] holds for the empty string only. *)
Definition is_empty (s : t) : bool :=
  match s with [] => true | _ => false end.

Definition starts_with_space (s : t) : bool :=
  match s with [] => false | c :: _ => isspace c end.

Fixpoint ends_with_space (s : t) : bool :=
  match s with
  | [] => false
  | [c] => isspace c
  | _ :: s' => ends_with_space s'
  end.

(** No white space at either end. *)
Definition trimmed (s : t) : Prop :=
  starts_with_space s = false /\ ends_with_space s = false.

End PyStr.

Definition pystr : Type := PyStr.t.
Definition lit : string -> pystr := PyStr.lit.

(** ** Database models *)

(** The [status] column only ever receives the three literals
    ['waiting'] (the column default), ['served'] and ['cancelled']. *)
Inductive Status := Waiting | Served | Cancelled.

Definition Status_eqb (a b : Status) : bool :=
  match a, b with
  | Waiting, Waiting | Served, Served | Cancelled, Cancelled => true
  | _, _ => false
  end.

Module Department.
Record t := mk {
  id : Z;
  name : pystr;
  average_service_time : Z;
  description : pystr
}.
End Department.

Module Patient.
Record t := mk {
  id : Z;
  name : pystr;
  department : pystr;
  queue_number : Z;
  timestamp : Z;
  status : Status
}.

Definition set_status (s : Status) (p : t) : t :=
  mk (id p) (name p) (department p) (queue_number p) (timestamp p) s.
End Patient.

Record DB := mkDB {
  departments : list Department.t;
  patients : list Patient.t
}.

Definition empty_db : DB := mkDB [] [].

(** ** Queries *)

(** The integer primary key of a new row: one more than the largest key in
    the table, 1 in an empty table. *)
Definition next_rowid (ids : list Z) : Z :=
  fold_right Z.max 0 ids + 1.

(** [Query.first()] *)
Definition first {A : Type} (rows : list A) : option A :=
  match rows with
  | [] => None
  | r :: _ => Some r
  end.

(** [Query.count()] *)
Definition count {A : Type} (rows : list A) : Z :=
  Z.of_nat (List.length rows).

(** [Department.query.filter_by(name=...)] *)
Definition Department_filter_by_name (db : DB) (n : pystr)
  : list Department.t :=
  filter (fun d => PyStr.eqb (Department.name d) n) (departments db).

(** The keys SQLite can bind: the integers of 64 bits with a sign.  A
    query by any other integer raises [OverflowError] before it reaches
    the table. *)
Definition sqlite_integer (z : Z) : bool :=
  (- 2 ^ 63 <=? z) && (z <=? 2 ^ 63 - 1).

(** [Patient.query.get(patient_id)] for a key that SQLite can bind: the
    row under the key, if there is one.  The [OverflowError] of a key out
    of that range is not part of the model; what is stated about an id
    that no record carries is stated for a key in range. *)
Definition Patient_get (db : DB) (patient_id : Z) : option Patient.t :=
  find (fun p => Patient.id p =? patient_id) (patients db).

(** [Patient.query.filter_by(department=..., status=...)] *)
Definition Patient_filter_by (db : DB) (dept : pystr) (s : Status)
  : list Patient.t :=
  filter (fun p => PyStr.eqb (Patient.department p) dept
                   && Status_eqb (Patient.status p) s)
         (patients db).

(** [Patient.query.filter_by(status=...)] *)
Definition Patient_filter_by_status (db : DB) (s : Status)
  : list Patient.t :=
  filter (fun p => Status_eqb (Patient.status p) s) (patients db).

(** [order_by(Patient.queue_number.desc())], as a stable insertion sort. *)
Fixpoint insert_desc (p : Patient.t) (rows : list Patient.t)
  : list Patient.t :=
  match rows with
  | [] => [p]
  | r :: rows' =>
      if Patient.queue_number r <? Patient.queue_number p
      then p :: rows
      else r :: insert_desc p rows'
  end.

Fixpoint order_by_queue_number_desc (rows : list Patient.t)
  : list Patient.t :=
  match rows with
  | [] => []
  | p :: rows' => insert_desc p (order_by_queue_number_desc rows')
  end.

(** [db.session.add(row); db.session.commit()] for either table. *)
Definition add_department (db : DB) (n : pystr) (ast : Z) (descr : pystr)
  : DB :=
  let new_id := next_rowid (map Department.id (departments db)) in
  mkDB (departments db ++ [Department.mk new_id n ast descr]) (patients db).

Definition add_patient (db : DB) (now : Z) (n dept : pystr) (q : Z)
  : DB * Patient.t :=
  let new_id := next_rowid (map Patient.id (patients db)) in
  let p := Patient.mk new_id n dept q now Waiting in
  (mkDB (departments db) (patients db ++ [p]), p).

(** [patient.status = s; db.session.commit()] *)
Definition update_status (db : DB) (patient_id : Z) (s : Status) : DB :=
  mkDB (departments db)
       (map (fun p => if Patient.id p =? patient_id
                      then Patient.set_status s p else p)
            (patients db)).

(** ** Initialisation *)

Definition default_departments : list (pystr * Z * pystr) :=
  [ (lit "Doctor Consultation", 15, lit "General physician consultation");
    (lit "Pharmacy / Medicine Pickup", 5, lit "Collect prescribed medicines");
    (lit "Blood Test / Laboratory", 10, lit "Blood tests and lab work");
    (lit "Radiology / Scanning (X-ray, MRI, CT)", 20,
     lit "Medical imaging services");
    (lit "Medical Report Collection", 3,
     lit "Collect test reports and documents") ].

Definition init_db (db : DB) : DB :=
  if count (departments db) =? 0 then
    fold_left (fun acc '(n, ast, descr) => add_department acc n ast descr)
              default_departments db
  else db.

(** ** Queue management functions *)

Definition get_next_queue_number (db : DB) (department_name : pystr) : Z :=
  let last_patient :=
    first (order_by_queue_number_desc
             (Patient_filter_by db department_name Waiting)) in
  match last_patient with
  | Some last => Patient.queue_number last + 1
  | None => 1
  end.

Definition get_queue_position (db : DB) (patient_id : Z) : option Z :=
  match Patient_get db patient_id with
  | None => None
  | Some patient =>
      if negb (Status_eqb (Patient.status patient) Waiting) then None
      else
        let position :=
          count (filter
                   (fun p =>
                      PyStr.eqb (Patient.department p)
                                (Patient.department patient)
                      && Status_eqb (Patient.status p) Waiting
                      && (Patient.queue_number p
                          <? Patient.queue_number patient))
                   (patients db)) + 1 in
        Some position
  end.

Definition calculate_waiting_time (db : DB) (department_name : pystr)
  (position : Z) : Z :=
  match first (Department_filter_by_name db department_name) with
  | None => 0
  | Some dept => (position - 1) * Department.average_service_time dept
  end.

Record CrowdLevel := mkCrowd { level : pystr; color : pystr }.

Definition get_crowd_level (n : Z) : CrowdLevel :=
  if n <=? 10 then mkCrowd (lit "Low") (lit "success")
  else if n <=? 25 then mkCrowd (lit "Moderate") (lit "warning")
  else mkCrowd (lit "High") (lit "danger").

Definition get_hospital_crowd_level (total_count : Z) : CrowdLevel :=
  if total_count <=? 40 then mkCrowd (lit "Low") (lit "success")
  else if total_count <=? 80 then mkCrowd (lit "Moderate") (lit "warning")
  else mkCrowd (lit "High") (lit "danger").

(** ** Requests and responses *)

(** The form of a POST to [/register]: a field is absent or holds a string. *)
Record Form := mkForm {
  form_name : option pystr;
  form_department : option pystr
}.

(** [request.form.get(key, default)] *)
Definition form_get (field : option pystr) (default : pystr) : pystr :=
  match field with
  | Some v => v
  | None => default
  end.

#[local] Set Warnings "-register-all".

(** The values handed to [jsonify]. *)
Inductive json :=
| JNull
| JBool (b : bool)
| JInt (z : Z)
| JStr (s : pystr)
| JObj (fields : list (string * json)).

Fixpoint json_field (key : string) (fields : list (string * json))
  : option json :=
  match fields with
  | [] => None
  | (k, v) :: fields' =>
      if String.eqb k key then Some v else json_field key fields'
  end.

Definition json_get (key : string) (j : json) : option json :=
  match j with
  | JObj fields => json_field key fields
  | _ => None
  end.

(** A response: the HTTP status, the JSON body and the patient id written
    to the session cookie, if any. *)
Record Response := mkResponse {
  status_code : Z;
  body : json;
  session_patient_id : option Z
}.

Definition jsonify (j : json) : Response := mkResponse 200 j None.

Definition error_response (msg : string) (code : Z) : Response :=
  mkResponse code (JObj [("error"%string, JStr (lit msg))]) None.

(** An exception that escapes a handler is answered with status 500. *)
Definition internal_server_error : Response := mkResponse 500 JNull None.

(** [abort(404)] of [get_or_404]. *)
Definition not_found : Response := mkResponse 404 JNull None.

Definition json_of_crowd (c : CrowdLevel) : json :=
  JObj [("level"%string, JStr (level c)); ("color"%string, JStr (color c))].

Definition json_of_status (s : Status) : json :=
  JStr (lit match s with
            | Waiting => "waiting"
            | Served => "served"
            | Cancelled => "cancelled"
            end).

(** The [patient_id] of a JSON payload, absent or an integer; [not
    patient_id] holds when it is absent or 0. *)
Definition truthy (patient_id : option Z) : option Z :=
  match patient_id with
  | None => None
  | Some z => if z =? 0 then None else Some z
  end.

(** ** Routes *)

(** POST [/register]; [now] is the clock read for the [timestamp] default. *)
Definition register (db : DB) (now : Z) (form : Form) : DB * Response :=
  let name := PyStr.strip (form_get (form_name form) []) in
  let department := PyStr.strip (form_get (form_department form) []) in
  if PyStr.is_empty name || PyStr.is_empty department then
    (db, error_response "Name and department are required" 400)
  else
    match first (Department_filter_by_name db department) with
    | None => (db, error_response "Invalid department" 400)
    | Some _ =>
        let queue_number := get_next_queue_number db department in
        let '(db', patient) :=
          add_patient db now name department queue_number in
        match get_queue_position db' (Patient.id patient) with
        | None => (db', internal_server_error)
        | Some position =>
            let waiting_time :=
              calculate_waiting_time db' department position in
            let dept_queue_count :=
              count (Patient_filter_by db' department Waiting) in
            let crowd_level := get_crowd_level dept_queue_count in
            (db',
             mkResponse 200
               (JObj [("success"%string, JBool true);
                      ("patient_id"%string, JInt (Patient.id patient));
                      ("queue_number"%string, JInt queue_number);
                      ("position"%string, JInt position);
                      ("waiting_time"%string, JInt waiting_time);
                      ("crowd_level"%string, json_of_crowd crowd_level)])
               (Some (Patient.id patient)))
        end
    end.

(** GET [/api/hospital_overview] *)
Definition hospital_overview (db : DB) : Response :=
  let total_waiting := count (Patient_filter_by_status db Waiting) in
  let total_served := count (Patient_filter_by_status db Served) in
  let hospital_crowd := get_hospital_crowd_level total_waiting in
  jsonify
    (JObj [("total_waiting"%string, JInt total_waiting);
           ("total_served"%string, JInt total_served);
           ("total_patients"%string, JInt (total_waiting + total_served));
           ("crowd_level"%string, JStr (level hospital_crowd));
           ("crowd_color"%string, JStr (color hospital_crowd))]).

(** GET [/api/patient_status/<patient_id>] *)
Definition patient_status_api (db : DB) (patient_id : Z) : Response :=
  match Patient_get db patient_id with
  | None => not_found
  | Some patient =>
      let '(position, waiting_time) :=
        if Status_eqb (Patient.status patient) Served then (Some 0, 0)
        else
          let position := get_queue_position db patient_id in
          (position,
           match position with
           | Some pos =>
               if pos =? 0 then 0
               else calculate_waiting_time db (Patient.department patient) pos
           | None => 0
           end) in
      let dept_queue_count :=
        count (Patient_filter_by db (Patient.department patient) Waiting) in
      let crowd_level := get_crowd_level dept_queue_count in
      jsonify
        (JObj [("name"%string, JStr (Patient.name patient));
               ("department"%string, JStr (Patient.department patient));
               ("queue_number"%string, JInt (Patient.queue_number patient));
               ("position"%string,
                match position with Some pos => JInt pos | None => JNull end);
               ("waiting_time"%string, JInt waiting_time);
               ("status"%string, json_of_status (Patient.status patient));
               ("crowd_level"%string, JStr (level crowd_level));
               ("crowd_color"%string, JStr (color crowd_level))])
  end.

(** POST [/api/leave_queue] *)
Definition leave_queue (db : DB) (patient_id : option Z) : DB * Response :=
  match truthy patient_id with
  | None => (db, error_response "Patient ID required" 400)
  | Some pid =>
      match Patient_get db pid with
      | None => (db, error_response "Patient not found" 404)
      | Some patient =>
          if negb (Status_eqb (Patient.status patient) Waiting) then
            (db, error_response "Patient is not in queue" 400)
          else
            (update_status db (Patient.id patient) Cancelled,
             jsonify
               (JObj [("success"%string, JBool true);
                      ("message"%string,
                       JStr (Patient.name patient
                             ++ lit " has left the queue for "
                             ++ Patient.department patient))]))
      end
  end.

(** POST [/api/mark_served] *)
Definition mark_served (db : DB) (patient_id : option Z) : DB * Response :=
  match truthy patient_id with
  | None => (db, error_response "Patient ID required" 400)
  | Some pid =>
      match Patient_get db pid with
      | None => (db, error_response "Patient not found" 404)
      | Some patient =>
          (update_status db (Patient.id patient) Served,
           jsonify
             (JObj [("success"%string, JBool true);
                    ("message"%string,
                     JStr (lit "Patient " ++ Patient.name patient
                           ++ lit " marked as served"))]))
      end
  end.

(** ** Histories of requests *)

Inductive Request :=
| POST_register (now : Z) (form : Form)
| POST_leave_queue (patient_id : option Z)
| POST_mark_served (patient_id : option Z).

Definition handle (db : DB) (r : Request) : DB * Response :=
  match r with
  | POST_register now form => register db now form
  | POST_leave_queue patient_id => leave_queue db patient_id
  | POST_mark_served patient_id => mark_served db patient_id
  end.

(** The database after a history of requests, oldest first. *)
Fixpoint run (db : DB) (rs : list Request) : DB :=
  match rs with
  | [] => db
  | r :: rs' => run (fst (handle db r)) rs'
  end.

(** How many requests of the history that satisfy [sel] were answered with
    status 200. *)
Fixpoint succeeded (sel : Request -> bool) (db : DB) (rs : list Request)
  : nat :=
  match rs with
  | [] => 0%nat
  | r :: rs' =>
      let '(db', resp) := handle db r in
      ((if sel r && (status_code resp =? 200)%Z then 1 else 0)
       + succeeded sel db' rs')%nat
  end.

Definition is_registration_to (dept : pystr) (r : Request) : bool :=
  match r with
  | POST_register _ form =>
      PyStr.eqb (PyStr.strip (form_get (form_department form) [])) dept
  | _ => false
  end.

Definition is_leave_queue (r : Request) : bool :=
  match r with POST_leave_queue _ => true | _ => false end.

Definition is_mark_served (r : Request) : bool :=
  match r with POST_mark_served _ => true | _ => false end.

Definition registrations (dept : pystr) := succeeded (is_registration_to dept).
Definition cancellations := succeeded is_leave_queue.
Definition servings := succeeded is_mark_served.

(** ** Scenario data *)

Definition pharmacy : pystr := lit "Pharmacy / Medicine Pickup".

Definition form_for (n dept : pystr) : Form := mkForm (Some n) (Some dept).

Definition seeded_db : DB := init_db empty_db.

Definition alice : Form := form_for (lit "Alice") pharmacy.
Definition bob : Form := form_for (lit "Bob") pharmacy.
Definition carol : Form := form_for (lit "Carol") pharmacy.

(** Alice alone in the pharmacy queue, and the same after she left it. *)
Definition db_alice : DB := fst (register seeded_db 0 alice).
Definition db_alice_cancelled : DB := fst (leave_queue db_alice (Some 1)).

Definition alice_row (s : Status) : Patient.t :=
  Patient.mk 1 (lit "Alice") pharmacy 1 0 s.
Definition bob_row : Patient.t :=
  Patient.mk 2 (lit "Bob") pharmacy 2 1 Waiting.
Definition carol_row : Patient.t :=
  Patient.mk 2 (lit "Carol") pharmacy 1 2 Waiting.

(** ** The statements of the specification *)

(** The largest element of a list of integers, if there is one. *)
Fixpoint maximum (l : list Z) : option Z :=
  match l with
  | [] => None
  | x :: l' =>
      match maximum l' with
      | None => Some x
      | Some m => Some (Z.max x m)
      end
  end.

(** The queue numbers of the waiting records of a department. *)
Definition waiting_queue_numbers (db : DB) (dept : pystr) : list Z :=
  map Patient.queue_number (Patient_filter_by db dept Waiting).

(** [nextQueueNumber] as the specification words it: the maximum queue
    number among the waiting records of the department plus 1, or 1. *)
Definition nextQueueNumber_spec (db : DB) (dept : pystr) : Z :=
  match maximum (waiting_queue_numbers db dept) with
  | Some m => m + 1
  | None => 1
  end.

(** [positionOf] as the specification words it. *)
Fixpoint count_ahead (dept : pystr) (q : Z) (rows : list Patient.t) : Z :=
  match rows with
  | [] => 0
  | p :: rows' =>
      (if PyStr.eqb (Patient.department p) dept
          && Status_eqb (Patient.status p) Waiting
          && (Patient.queue_number p <? q)
       then 1 else 0) + count_ahead dept q rows'
  end.

Definition positionOf_spec (db : DB) (patient_id : Z) : option Z :=
  match find (fun p => Patient.id p =? patient_id) (patients db) with
  | Some p =>
      match Patient.status p with
      | Waiting =>
          Some (count_ahead (Patient.department p) (Patient.queue_number p)
                            (patients db) + 1)
      | _ => None
      end
  | None => None
  end.

(** A record of the new table that the old table does not hold. *)
Definition created (db db' : DB) (p : Patient.t) : Prop :=
  In p (patients db') /\ ~ In p (patients db).

(** "A queue number of a served or cancelled record is never assigned to a
    later registration of the same department", over every database that
    a history of requests reaches from an empty patient table. *)
Definition queue_numbers_never_reused : Prop :=
  forall (db0 : DB) (rs : list Request) (now : Z) (form : Form)
         (old new : Patient.t),
    patients db0 = [] ->
    In old (patients (run db0 rs)) ->
    Patient.status old <> Waiting ->
    created (run db0 rs) (fst (register (run db0 rs) now form)) new ->
    Patient.department new = Patient.department old ->
    Patient.queue_number new <> Patient.queue_number old.

(** "After N successful registrations to a department with no
    cancellations, from an empty patient table, the next queue number of
    the department is N + 1." *)
Definition next_counts_registrations_absent_cancellations : Prop :=
  forall (db0 : DB) (rs : list Request) (dept : pystr),
    patients db0 = [] ->
    cancellations db0 rs = 0%nat ->
    get_next_queue_number (run db0 rs) dept
    = Z.of_nat (registrations dept db0 rs) + 1.

(** The names stored in the patient table carry no white space at either
    end. *)
Definition names_trimmed (db : DB) : Prop :=
  Forall (fun p => PyStr.trimmed (Patient.name p)) (patients db).

(** The database without its cancelled records. *)
Definition without_cancelled (db : DB) : DB :=
  mkDB (departments db)
       (filter (fun p => negb (Status_eqb (Patient.status p) Cancelled))
               (patients db)).

(** The two ways a POST to [/register] ends: rejected with status 400 and
    the database as it was, or accepted with status 200 and one new waiting
    record appended. *)
Inductive register_outcome (db : DB) (now : Z) (form : Form)
  : DB * Response -> Prop :=
| register_rejected (resp : Response) :
    status_code resp = 400 ->
    register_outcome db now form (db, resp)
| register_accepted (p : Patient.t) (resp : Response) :
    p = Patient.mk (next_rowid (map Patient.id (patients db)))
                   (PyStr.strip (form_get (form_name form) []))
                   (PyStr.strip (form_get (form_department form) []))
                   (get_next_queue_number db
                      (PyStr.strip (form_get (form_department form) [])))
                   now Waiting ->
    Patient.name p <> [] ->
    Patient.department p <> [] ->
    first (Department_filter_by_name db (Patient.department p)) <> None ->
    status_code resp = 200 ->
    json_get "queue_number" (body resp)
    = Some (JInt (Patient.queue_number p)) ->
    register_outcome db now form
      (mkDB (departments db) (patients db ++ [p]), resp).

(** ** Department status

    GET [/api/department_status] computes [avg_waiting_time] in floating
    point: the type of floats and the one float computation of the handler
    are parameters of the model. *)

Section DepartmentStatus.

Variable float : Type.

(** [round(average_service_time * (queue_count / 2), 1)] for a positive
    [queue_count], where [/] is the float division. *)
Variable rounded_half_product : Z -> Z -> float.

(** A JSON number: a Python [int] or a Python [float]. *)
Inductive number :=
| Int (z : Z)
| Float (f : float).

(** One dict of the list handed to [jsonify]. *)
Record DepartmentRow := mkRow {
  row_name : pystr;
  row_queue_count : Z;
  row_average_service_time : Z;
  row_avg_waiting_time : number;
  row_crowd_level : pystr;
  row_crowd_color : pystr
}.

(** The body of the loop over [Department.query.all()]; with an empty
    queue the product is the integer [average_service_time * 0], which
    [round] returns as it is. *)
Definition department_row (db : DB) (dept : Department.t) : DepartmentRow :=
  let queue_count :=
    count (Patient_filter_by db (Department.name dept) Waiting) in
  let avg_waiting_time :=
    if 0 <? queue_count
    then Float (rounded_half_product
                  (Department.average_service_time dept) queue_count)
    else Int (Department.average_service_time dept * 0) in
  let crowd_level := get_crowd_level queue_count in
  mkRow (Department.name dept) queue_count
        (Department.average_service_time dept) avg_waiting_time
        (level crowd_level) (color crowd_level).

Definition department_status (db : DB) : list DepartmentRow :=
  map (department_row db) (departments db).

End DepartmentStatus.

(** ** Properties of the tables *)

(** Strictly increasing from left to right. *)
Fixpoint increasing (l : list Z) : Prop :=
  match l with
  | [] => True
  | x :: l' => Forall (fun y => x < y) l' /\ increasing l'
  end.

(** The primary keys of the patient table are 1, 2, ... in row order. *)
Definition ids_from_one (db : DB) : Prop :=
  map Patient.id (patients db)
  = map Z.of_nat (seq 1 (List.length (patients db))).

(** Every record names a department of the catalog. *)
Definition departments_known (db : DB) : Prop :=
  Forall (fun p => exists d, In d (departments db)
                             /\ Department.name d = Patient.department p)
         (patients db).

(** A later state [p'] of the record [p]: the same row but for its
    status, which is not waiting unless it was. *)
Definition keeps (p p' : Patient.t) : Prop :=
  Patient.id p' = Patient.id p
  /\ Patient.name p' = Patient.name p
  /\ Patient.department p' = Patient.department p
  /\ Patient.queue_number p' = Patient.queue_number p
  /\ Patient.timestamp p' = Patient.timestamp p
  /\ (Patient.status p' = Waiting -> Patient.status p = Waiting).

(** A later state [rows'] of the table [rows]: the old rows in their
    order, each kept, followed by new ones. *)
Definition extends (rows rows' : list Patient.t) : Prop :=
  exists kept added, rows' = kept ++ added /\ Forall2 keeps rows kept.

(** The integer under a key of a JSON object. *)
Definition json_int (key : string) (j : json) : option Z :=
  match json_get key j with
  | Some (JInt z) => Some z
  | _ => None
  end.

(** Alice then Bob in the pharmacy queue. *)
Definition db_alice_bob : DB := fst (register db_alice 1 bob).

(** A submission with white space around the name and the department. *)
Definition alice_padded : Form :=
  form_for ([32; 9]%N ++ lit "Alice B" ++ [10; 32]%N)
           ([32]%N ++ pharmacy ++ [160]%N).

(** ** Scenarios of the specification *)

Example alice_then_bob :
  let '(db1, r1) := register seeded_db 0 (form_for (lit "Alice") pharmacy) in
  let '(db2, r2) := register db1 1 (form_for (lit "Bob") pharmacy) in
  (json_get "position" (body r1), json_get "waiting_time" (body r1),
   json_get "position" (body r2), json_get "waiting_time" (body r2),
   map Patient.id (patients db2))
  = (Some (JInt 1), Some (JInt 0), Some (JInt 2), Some (JInt 5), [1; 2]).
Proof. vm_compute. reflexivity. Qed.

(** ** Facts about strings *)

Module PyStrFacts.
Import PyStr.

Lemma eqb_eq (a b : t) : eqb a b = true <-> a = b.
Proof.
  revert b; induction a as [|x a IH]; intros [|y b]; simpl;
    try (split; [discriminate | discriminate]); try tauto.
  rewrite andb_true_iff, N.eqb_eq, IH.
  split; [intros [-> ->]; reflexivity | intros H; inversion H; auto].
Qed.

Lemma eqb_refl (a : t) : eqb a a = true.
Proof. apply eqb_eq; reflexivity. Qed.

Lemma lstrip_start (s : t) : starts_with_space (lstrip s) = false.
Proof.
  induction s as [|c s IH]; simpl; [reflexivity|].
  destruct (isspace c) eqn:Hc; [exact IH | simpl; exact Hc].
Qed.

Lemma rstrip_start (s : t) :
  starts_with_space s = false -> starts_with_space (rstrip s) = false.
Proof.
  destruct s as [|c s]; simpl; [reflexivity|]; intros Hc.
  destruct (rstrip s); [rewrite Hc|]; simpl; auto.
Qed.

Lemma rstrip_end (s : t) : ends_with_space (rstrip s) = false.
Proof.
  induction s as [|c s IH]; simpl; [reflexivity|].
  destruct (rstrip s) as [|x r]; [|exact IH].
  destruct (isspace c) eqn:Hc; simpl; auto.
Qed.

Lemma strip_trimmed (s : t) : trimmed (strip s).
Proof.
  split; [apply rstrip_start, lstrip_start | apply rstrip_end].
Qed.

Lemma lstrip_spaces (s : t) : forallb isspace s = true -> lstrip s = [].
Proof.
  induction s as [|c s IH]; simpl; [reflexivity|].
  rewrite andb_true_iff; intros [-> Hs]; auto.
Qed.

Lemma strip_spaces (s : t) : forallb isspace s = true -> strip s = [].
Proof. intros H; unfold strip; rewrite lstrip_spaces by exact H; reflexivity. Qed.

End PyStrFacts.

(** ** Facts about the queries *)

Lemma Status_eqb_eq (a b : Status) : Status_eqb a b = true <-> a = b.
Proof. destruct a, b; simpl; split; congruence. Qed.

Lemma fold_max_bound (ids : list Z) (x : Z) :
  In x ids -> x <= fold_right Z.max 0 ids.
Proof.
  induction ids as [|y ids IH]; simpl; [tauto|].
  intros [->|H]; [|specialize (IH H)]; lia.
Qed.

Lemma next_rowid_fresh (rows : list Patient.t) :
  find (fun p => Patient.id p =? next_rowid (map Patient.id rows)) rows = None.
Proof.
  destruct (find _ rows) as [p|] eqn:Hf; [|reflexivity].
  apply find_some in Hf; destruct Hf as [Hin Heq].
  apply Z.eqb_eq in Heq.
  pose proof (fold_max_bound (map Patient.id rows) (Patient.id p)
                (in_map _ _ _ Hin)).
  unfold next_rowid in Heq; lia.
Qed.

Lemma find_app_none {A : Type} (f : A -> bool) (l1 l2 : list A) :
  find f l1 = None -> find f (l1 ++ l2) = find f l2.
Proof.
  induction l1 as [|x l1 IH]; simpl; [reflexivity|].
  destruct (f x); [discriminate | exact IH].
Qed.

Lemma first_insert_desc (p : Patient.t) (rows : list Patient.t) :
  first (insert_desc p rows)
  = match first rows with
    | None => Some p
    | Some r =>
        if Patient.queue_number r <? Patient.queue_number p
        then Some p else Some r
    end.
Proof.
  destruct rows as [|r rows]; simpl; [reflexivity|].
  destruct (Patient.queue_number r <? Patient.queue_number p); reflexivity.
Qed.

(** The first row of the descending order carries the largest number. *)
Lemma first_order_by_desc (rows : list Patient.t) :
  option_map Patient.queue_number (first (order_by_queue_number_desc rows))
  = maximum (map Patient.queue_number rows).
Proof.
  induction rows as [|p rows IH]; simpl; [reflexivity|].
  rewrite first_insert_desc, <- IH.
  destruct (first (order_by_queue_number_desc rows)) as [r|]; simpl;
    [|reflexivity].
  destruct (Z.ltb_spec (Patient.queue_number r) (Patient.queue_number p));
    simpl; f_equal; lia.
Qed.

Lemma get_next_queue_number_maximum (db : DB) (dept : pystr) :
  get_next_queue_number db dept = nextQueueNumber_spec db dept.
Proof.
  unfold get_next_queue_number, nextQueueNumber_spec, waiting_queue_numbers.
  rewrite <- first_order_by_desc.
  destruct (first _); reflexivity.
Qed.

Lemma maximum_bound (l : list Z) (x : Z) :
  In x l -> exists m, maximum l = Some m /\ x <= m.
Proof.
  induction l as [|y l IH]; simpl; [tauto|].
  intros [->|H].
  - destruct (maximum l) as [m|]; eexists; split; try reflexivity; lia.
  - destruct (IH H) as [m [-> Hm]]. eexists; split; [reflexivity|lia].
Qed.

Lemma maximum_snoc (l : list Z) (x : Z) :
  maximum (l ++ [x])
  = Some match maximum l with Some m => Z.max m x | None => x end.
Proof.
  induction l as [|y l IH]; simpl; [reflexivity|].
  rewrite IH. destruct (maximum l); f_equal; lia.
Qed.

Lemma count_ahead_filter (dept : pystr) (q : Z) (rows : list Patient.t) :
  count (filter (fun p => PyStr.eqb (Patient.department p) dept
                          && Status_eqb (Patient.status p) Waiting
                          && (Patient.queue_number p <? q)) rows)
  = count_ahead dept q rows.
Proof.
  unfold count.
  induction rows as [|p rows IH]; simpl; [reflexivity|].
  rewrite <- IH.
  destruct (_ && _ && _); simpl List.length; lia.
Qed.

(** ** Facts about the routes *)

Lemma Patient_get_added (db : DB) (p : Patient.t) :
  Patient.id p = next_rowid (map Patient.id (patients db)) ->
  Patient_get (mkDB (departments db) (patients db ++ [p])) (Patient.id p)
  = Some p.
Proof.
  intros Hid. unfold Patient_get; simpl.
  rewrite find_app_none by (rewrite Hid; apply next_rowid_fresh).
  simpl. rewrite Z.eqb_refl. reflexivity.
Qed.

Lemma register_cases (db : DB) (now : Z) (form : Form) :
  register_outcome db now form (register db now form).
Proof.
  unfold register.
  destruct (PyStr.strip (form_get (form_name form) [])) as [|c n] eqn:Hn;
    [constructor; reflexivity|].
  destruct (PyStr.strip (form_get (form_department form) []))
    as [|c' d] eqn:Hd; [constructor; reflexivity|].
  cbn [PyStr.is_empty orb].
  destruct (first (Department_filter_by_name db (c' :: d))) eqn:Hdept;
    [|constructor; reflexivity].
  unfold add_patient.
  set (p := Patient.mk _ _ _ _ _ _).
  unfold get_queue_position.
  rewrite (Patient_get_added db p eq_refl).
  cbn [Patient.status p Status_eqb negb].
  eapply register_accepted; try reflexivity; subst p; simpl;
    try discriminate.
  rewrite Hn, Hd. reflexivity.
  rewrite Hdept; discriminate.
Qed.

Lemma leave_queue_unchanged (db : DB) (patient_id : option Z) :
  status_code (snd (leave_queue db patient_id)) <> 200 ->
  fst (leave_queue db patient_id) = db.
Proof.
  unfold leave_queue.
  destruct (truthy patient_id) as [pid|]; [|reflexivity].
  destruct (Patient_get db pid) as [p|]; [|reflexivity].
  destruct (negb _); [reflexivity|].
  simpl; congruence.
Qed.

Lemma mark_served_unchanged (db : DB) (patient_id : option Z) :
  status_code (snd (mark_served db patient_id)) <> 200 ->
  fst (mark_served db patient_id) = db.
Proof.
  unfold mark_served.
  destruct (truthy patient_id) as [pid|]; [|reflexivity].
  destruct (Patient_get db pid) as [p|]; [|reflexivity].
  simpl; congruence.
Qed.

(** A record appended with the next number of its department raises the
    next number of that department by one and leaves the others. *)
Lemma get_next_queue_number_added (db : DB) (p : Patient.t) (dept : pystr) :
  Patient.queue_number p = get_next_queue_number db (Patient.department p) ->
  Patient.status p = Waiting ->
  get_next_queue_number (mkDB (departments db) (patients db ++ [p])) dept
  = get_next_queue_number db dept
    + (if PyStr.eqb (Patient.department p) dept then 1 else 0).
Proof.
  intros Hq Hs.
  rewrite !get_next_queue_number_maximum in *.
  unfold nextQueueNumber_spec, waiting_queue_numbers, Patient_filter_by in *.
  cbn [patients]. rewrite filter_app, map_app. cbn [filter].
  rewrite Hs. cbn [Status_eqb]. rewrite andb_true_r.
  destruct (PyStr.eqb (Patient.department p) dept) eqn:He.
  - apply PyStrFacts.eqb_eq in He. subst dept.
    cbn [map]. rewrite maximum_snoc, Hq.
    destruct (maximum _); lia.
  - cbn [map]. rewrite app_nil_r. lia.
Qed.

Lemma succeeded_cons (sel : Request -> bool) (db : DB) (r : Request)
  (rs : list Request) :
  succeeded sel db (r :: rs)
  = ((if sel r && (status_code (snd (handle db r)) =? 200)%Z then 1 else 0)
     + succeeded sel (fst (handle db r)) rs)%nat.
Proof. simpl. destruct (handle db r); reflexivity. Qed.

(** With no record cancelled and none marked served, every successful
    registration to a department raises its next number by one. *)
Lemma next_after_history (dept : pystr) (rs : list Request) :
  forall db : DB,
    cancellations db rs = 0%nat ->
    servings db rs = 0%nat ->
    get_next_queue_number (run db rs) dept
    = get_next_queue_number db dept + Z.of_nat (registrations dept db rs).
Proof.
  unfold cancellations, servings, registrations.
  induction rs as [|r rs IH]; intros db Hc Hs; [simpl; lia|].
  rewrite succeeded_cons in Hc, Hs |- *.
  cbn [run].
  destruct r as [now form|pid|pid]; cbn [handle] in *.
  - cbn [is_leave_queue is_mark_served andb Nat.add] in Hc, Hs.
    rewrite (IH _ Hc Hs).
    destruct (register_cases db now form) as [resp Hr|p resp Hp _ _ _ Hr _];
      cbn [fst snd]; rewrite Hr.
    + rewrite andb_false_r. simpl. lia.
    + rewrite get_next_queue_number_added by (subst p; reflexivity).
      cbn [Z.eqb Pos.eqb is_registration_to]. rewrite andb_true_r.
      replace (Patient.department p)
        with (PyStr.strip (form_get (form_department form) []))
        by (subst p; reflexivity).
      destruct (PyStr.eqb _ dept); simpl Nat.add; lia.
  - cbn [is_leave_queue is_mark_served is_registration_to andb Nat.add]
      in Hc, Hs |- *.
    destruct (status_code (snd (leave_queue db pid)) =? 200) eqn:He;
      [discriminate|].
    apply Z.eqb_neq in He.
    rewrite (leave_queue_unchanged db pid He) in *.
    apply IH; assumption.
  - cbn [is_leave_queue is_mark_served is_registration_to andb Nat.add]
      in Hc, Hs |- *.
    destruct (status_code (snd (mark_served db pid)) =? 200) eqn:He;
      [discriminate|].
    apply Z.eqb_neq in He.
    rewrite (mark_served_unchanged db pid He) in *.
    apply IH; assumption.
Qed.

(** ** Status transitions *)

(** C1 (evaluation of the code where the claim fails): Alice's record is
    cancelled; a POST to [/api/mark_served] with her id is answered with
    status 200 and her record becomes served, where the claim asks for a
    client error and an unchanged status. *)
Theorem mark_served_accepts_cancelled :
  patients db_alice_cancelled = [alice_row Cancelled]
  /\ status_code (snd (mark_served db_alice_cancelled (Some 1))) = 200
  /\ patients (fst (mark_served db_alice_cancelled (Some 1)))
     = [alice_row Served]
  /\ status_code (snd (leave_queue db_alice_cancelled (Some 1))) = 400.
Proof. vm_compute. repeat split; reflexivity. Qed.

(** ** Queue numbers *)

(** C2 (counterexample): Alice registers at the pharmacy with number 1 and
    leaves the queue; Carol, who registers next, is given number 1 again. *)
Lemma queue_number_reused : ~ queue_numbers_never_reused.
Proof.
  intros H.
  specialize (H seeded_db [POST_register 0 alice; POST_leave_queue (Some 1)]
                2 carol (alice_row Cancelled) carol_row).
  apply H.
  - reflexivity.
  - vm_compute. left; reflexivity.
  - discriminate.
  - split.
    + vm_compute. right; left; reflexivity.
    + vm_compute. intros [E|[]]; discriminate E.
  - reflexivity.
  - reflexivity.
Qed.

(** C2 (amended): the record a registration creates carries a queue number
    strictly greater than the number of every record that is waiting in
    the same department at that moment. *)
Theorem register_number_above_waiting (db : DB) (now : Z) (form : Form)
  (old new : Patient.t) :
  created db (fst (register db now form)) new ->
  In old (patients db) ->
  Patient.status old = Waiting ->
  Patient.department old = Patient.department new ->
  Patient.queue_number old < Patient.queue_number new.
Proof.
  intros [Hin Hnot] Hold Hs Hd.
  destruct (register_cases db now form) as [resp _|p resp Hp _ _ _ _ _];
    cbn [fst patients] in Hin; [contradiction|].
  apply in_app_or in Hin. destruct Hin as [Hin|[<-|[]]]; [contradiction|].
  assert (Hq : Patient.queue_number p
               = nextQueueNumber_spec db (Patient.department p))
    by (rewrite <- get_next_queue_number_maximum; subst p; reflexivity).
  rewrite Hq. unfold nextQueueNumber_spec.
  assert (Hw : In (Patient.queue_number old)
                  (waiting_queue_numbers db (Patient.department p))).
  { unfold waiting_queue_numbers, Patient_filter_by.
    apply in_map, filter_In. split; [assumption|].
    rewrite Hd, Hs, PyStrFacts.eqb_refl. reflexivity. }
  destruct (maximum_bound _ _ Hw) as [m [Hmax Hm]].
  rewrite Hmax. lia.
Qed.

Lemma register_number_above_waiting_witness :
  created db_alice (fst (register db_alice 1 bob)) bob_row
  /\ Patient.queue_number (alice_row Waiting) < Patient.queue_number bob_row.
Proof.
  assert (Hc : created db_alice (fst (register db_alice 1 bob)) bob_row).
  { split.
    - vm_compute. right; left; reflexivity.
    - vm_compute. intros [E|[]]; discriminate E. }
  split; [exact Hc|].
  apply (register_number_above_waiting db_alice 1 bob
           (alice_row Waiting) bob_row Hc).
  - vm_compute. left; reflexivity.
  - reflexivity.
  - reflexivity.
Defined.

(** C3 (counterexample): Alice and Bob register at the pharmacy and Bob is
    marked served; nobody cancelled, yet the next number is 2 and not 3. *)
Lemma next_number_after_serving :
  ~ next_counts_registrations_absent_cancellations.
Proof.
  intros H.
  specialize (H seeded_db
                [POST_register 0 alice; POST_register 1 bob;
                 POST_mark_served (Some 2)]
                pharmacy eq_refl eq_refl).
  vm_compute in H. discriminate H.
Qed.

(** C3 (amended): from an empty patient table, after a history in which
    no record was cancelled and none was marked served, the next queue
    number of a department is the number of successful registrations to
    it plus 1; and in every database it is the largest queue number among
    the waiting records of the department plus 1, or 1 without any. *)
Theorem next_queue_number_after_registrations (db0 : DB)
  (rs : list Request) (dept : pystr) :
  (patients db0 = [] ->
   cancellations db0 rs = 0%nat ->
   servings db0 rs = 0%nat ->
   get_next_queue_number (run db0 rs) dept
   = Z.of_nat (registrations dept db0 rs) + 1)
  /\ get_next_queue_number (run db0 rs) dept
     = nextQueueNumber_spec (run db0 rs) dept
  /\ forall db : DB,
      get_next_queue_number db dept = nextQueueNumber_spec db dept.
Proof.
  repeat apply conj.
  - intros H0 Hc Hs.
    rewrite (next_after_history dept rs db0 Hc Hs).
    unfold get_next_queue_number at 1, Patient_filter_by. rewrite H0.
    cbn [filter order_by_queue_number_desc first]. lia.
  - apply get_next_queue_number_maximum.
  - intros db. apply get_next_queue_number_maximum.
Qed.

Lemma next_queue_number_after_registrations_witness :
  let rs := [POST_register 0 alice; POST_leave_queue (Some 7);
             POST_register 1 bob] in
  patients seeded_db = []
  /\ cancellations seeded_db rs = 0%nat
  /\ servings seeded_db rs = 0%nat
  /\ registrations pharmacy seeded_db rs = 2%nat
  /\ get_next_queue_number (run seeded_db rs) pharmacy = 3.
Proof.
  cbv zeta. do 4 (split; [reflexivity|]).
  apply (proj1 (next_queue_number_after_registrations seeded_db
                  [POST_register 0 alice; POST_leave_queue (Some 7);
                   POST_register 1 bob] pharmacy)); reflexivity.
Defined.

(** ** Position and waiting time *)

(** C4: for a patient id that SQLite can bind, the position is [None]
    when no record carries the id or when the record is not waiting; for
    a waiting record it is the number of waiting records of the same
    department with a strictly smaller queue number, plus 1. *)
Theorem get_queue_position_spec (db : DB) (patient_id : Z) :
  sqlite_integer patient_id = true ->
  get_queue_position db patient_id = positionOf_spec db patient_id
  /\ ((forall p, In p (patients db) -> Patient.id p <> patient_id) ->
      get_queue_position db patient_id = None)
  /\ (forall p, Patient_get db patient_id = Some p ->
                Patient.status p <> Waiting ->
                get_queue_position db patient_id = None)
  /\ (forall p, Patient_get db patient_id = Some p ->
                Patient.status p = Waiting ->
                get_queue_position db patient_id
                = Some (count_ahead (Patient.department p)
                                    (Patient.queue_number p) (patients db)
                        + 1)).
Proof.
  intros _.
  unfold get_queue_position, positionOf_spec, Patient_get.
  repeat split.
  - destruct (find _ (patients db)) as [p|]; [|reflexivity].
    rewrite count_ahead_filter. destruct (Patient.status p); reflexivity.
  - intros Hnone.
    destruct (find _ (patients db)) as [p|] eqn:Hf; [|reflexivity].
    apply find_some in Hf. destruct Hf as [Hin Hid].
    apply Z.eqb_eq in Hid. elim (Hnone p Hin Hid).
  - intros p -> Hs. destruct (Patient.status p); simpl; congruence.
  - intros p -> Hs. rewrite Hs, count_ahead_filter. reflexivity.
Qed.

Lemma get_queue_position_spec_witness :
  sqlite_integer 2 = true
  /\ get_queue_position db_alice_bob 2 = Some 2
  /\ get_queue_position db_alice_bob 7 = None
  /\ get_queue_position db_alice_cancelled 1 = None.
Proof.
  split; [reflexivity|]. repeat apply conj.
  - destruct (get_queue_position_spec db_alice_bob 2 eq_refl)
      as [_ [_ [_ H]]].
    apply (H bob_row); reflexivity.
  - destruct (get_queue_position_spec db_alice_bob 7 eq_refl)
      as [_ [H _]].
    apply H. vm_compute. intros p [<-|[<-|[]]]; discriminate.
  - destruct (get_queue_position_spec db_alice_cancelled 1 eq_refl)
      as [_ [_ [H _]]].
    apply (H (alice_row Cancelled)); [reflexivity | discriminate].
Defined.

Lemma first_filter_by_unique_name (rows : list Department.t)
  (dept : Department.t) :
  NoDup (map Department.name rows) ->
  In dept rows ->
  first (filter (fun d => PyStr.eqb (Department.name d)
                                    (Department.name dept)) rows)
  = Some dept.
Proof.
  induction rows as [|d rows IH]; simpl; [tauto|].
  intros Hnd [->|Hin].
  - rewrite PyStrFacts.eqb_refl. reflexivity.
  - inversion Hnd as [|? ? Hnot Hnd']; subst.
    destruct (PyStr.eqb (Department.name d) (Department.name dept)) eqn:He.
    + apply PyStrFacts.eqb_eq in He. elim Hnot. rewrite He.
      apply in_map. exact Hin.
    + apply IH; assumption.
Qed.

Lemma filter_by_unknown_name (rows : list Department.t) (n : pystr) :
  (forall d, In d rows -> Department.name d <> n) ->
  filter (fun d => PyStr.eqb (Department.name d) n) rows = [].
Proof.
  induction rows as [|d rows IH]; simpl; [reflexivity|]; intros H.
  destruct (PyStr.eqb (Department.name d) n) eqn:He.
  - apply PyStrFacts.eqb_eq in He. elim (H d (or_introl eq_refl) He).
  - apply IH. intros d' Hd'. apply H. right; exact Hd'.
Qed.

(** C5: for a department of the catalog (where names are unique) the
    estimated wait at position [p] is [(p - 1)] times its average service
    time; position 1 gives 0 for every department name; a name that no
    department carries gives 0. *)
Theorem calculate_waiting_time_spec (db : DB) (position : Z) :
  (forall dept,
      NoDup (map Department.name (departments db)) ->
      In dept (departments db) ->
      calculate_waiting_time db (Department.name dept) position
      = (position - 1) * Department.average_service_time dept)
  /\ (forall n, calculate_waiting_time db n 1 = 0)
  /\ (forall n,
         (forall d, In d (departments db) -> Department.name d <> n) ->
         calculate_waiting_time db n position = 0).
Proof.
  unfold calculate_waiting_time, Department_filter_by_name.
  repeat split.
  - intros dept Hnd Hin.
    rewrite (first_filter_by_unique_name _ _ Hnd Hin). reflexivity.
  - intros n. destruct (first _); reflexivity.
  - intros n Hn. rewrite (filter_by_unknown_name _ _ Hn). reflexivity.
Qed.

(** ** Crowd levels *)

(** C6: a department count up to 10 is Low, from 11 to 25 Moderate and
    from 26 High; a hospital total up to 40 is Low, from 41 to 80 Moderate
    and from 81 High; the tiers carry the colors success, warning and
    danger. *)
Theorem crowd_level_tiers (n : Z) :
  (n <= 10 -> get_crowd_level n = mkCrowd (lit "Low") (lit "success"))
  /\ (11 <= n <= 25 ->
      get_crowd_level n = mkCrowd (lit "Moderate") (lit "warning"))
  /\ (26 <= n -> get_crowd_level n = mkCrowd (lit "High") (lit "danger"))
  /\ (n <= 40 ->
      get_hospital_crowd_level n = mkCrowd (lit "Low") (lit "success"))
  /\ (41 <= n <= 80 ->
      get_hospital_crowd_level n = mkCrowd (lit "Moderate") (lit "warning"))
  /\ (81 <= n ->
      get_hospital_crowd_level n = mkCrowd (lit "High") (lit "danger")).
Proof.
  unfold get_crowd_level, get_hospital_crowd_level.
  repeat split; intros H;
    repeat match goal with
           | |- context [?a <=? ?b] => destruct (Z.leb_spec a b)
           end; try reflexivity; lia.
Qed.

Example crowd_level_boundaries :
  map (fun n => level (get_crowd_level n)) [10; 11; 25; 26]
  = [lit "Low"; lit "Moderate"; lit "Moderate"; lit "High"]
  /\ map (fun n => level (get_hospital_crowd_level n)) [40; 41; 80; 81]
     = [lit "Low"; lit "Moderate"; lit "Moderate"; lit "High"].
Proof. split; reflexivity. Qed.

(** ** Seeding the catalog *)

(** C7: [init_db] leaves a non-empty catalog as it is; run twice from an
    empty catalog it yields the five default departments, once each. *)
Theorem init_db_idempotent :
  (forall db, departments db <> [] -> init_db db = db)
  /\ (forall rows,
         init_db (init_db (mkDB [] rows)) = init_db (mkDB [] rows)
         /\ map (fun d => (Department.name d,
                           Department.average_service_time d,
                           Department.description d))
                (departments (init_db (init_db (mkDB [] rows))))
            = default_departments
         /\ map Department.id (departments (init_db (init_db (mkDB [] rows))))
            = [1; 2; 3; 4; 5]
         /\ NoDup (map Department.name
                       (departments (init_db (init_db (mkDB [] rows)))))
         /\ patients (init_db (init_db (mkDB [] rows))) = rows).
Proof.
  split.
  - intros [[|d ds] ps] H; [elim H; reflexivity | reflexivity].
  - intros rows. repeat split.
    vm_compute.
    repeat (constructor;
            [cbn [In]; intros H;
             repeat (destruct H as [H|H]; [discriminate H|]); exact H|]).
    constructor.
Qed.

(** ** Registration *)

(** C8: a POST to [/register] whose name or department field is missing,
    or whose department (as validated, stripped) is the name of no
    department, is answered with status 400 and leaves the database, and
    so the patient table, as it was. *)
Theorem register_rejects (db : DB) (now : Z) (form : Form) :
  form_name form = None
  \/ form_department form = None
  \/ (forall d, In d (departments db) ->
                Department.name d
                <> PyStr.strip (form_get (form_department form) [])) ->
  status_code (snd (register db now form)) = 400
  /\ fst (register db now form) = db.
Proof.
  intros H. unfold register.
  destruct H as [H|[H|H]].
  - rewrite H. split; reflexivity.
  - rewrite H. cbn [form_get PyStr.strip PyStr.lstrip PyStr.rstrip
                    PyStr.is_empty].
    rewrite orb_true_r. split; reflexivity.
  - destruct (_ || _); [split; reflexivity|].
    unfold Department_filter_by_name.
    rewrite (filter_by_unknown_name _ _ H). split; reflexivity.
Qed.

Lemma register_rejects_witness :
  status_code
    (snd (register seeded_db 0 (mkForm (Some (lit "Alice")) None))) = 400
  /\ fst (register seeded_db 0 (mkForm (Some (lit "Alice")) None))
     = seeded_db.
Proof.
  apply (register_rejects seeded_db 0 (mkForm (Some (lit "Alice")) None)).
  right; left; reflexivity.
Defined.

Example register_unknown_department :
  register seeded_db 0 (form_for (lit "Alice") (lit "Cardiology"))
  = (seeded_db, error_response "Invalid department" 400).
Proof. vm_compute. reflexivity. Qed.

Lemma update_status_names_trimmed (db : DB) (pid : Z) (s : Status) :
  names_trimmed db -> names_trimmed (update_status db pid s).
Proof.
  unfold names_trimmed, update_status; cbn [patients].
  intros H. apply Forall_map. revert H. apply Forall_impl.
  intros p Hp. destruct (Patient.id p =? pid); exact Hp.
Qed.

Lemma handle_names_trimmed (db : DB) (r : Request) :
  names_trimmed db -> names_trimmed (fst (handle db r)).
Proof.
  intros H. destruct r as [now form|pid|pid]; cbn [handle].
  - destruct (register_cases db now form) as [resp _|p resp Hp _ _ _ _ _];
      cbn [fst]; [exact H|].
    unfold names_trimmed; cbn [patients].
    apply Forall_app. split; [exact H|].
    constructor; [|constructor].
    subst p. apply PyStrFacts.strip_trimmed.
  - unfold leave_queue.
    destruct (truthy pid) as [i|]; [|exact H].
    destruct (Patient_get db i); [|exact H].
    destruct (negb _); [exact H|].
    apply update_status_names_trimmed, H.
  - unfold mark_served.
    destruct (truthy pid) as [i|]; [|exact H].
    destruct (Patient_get db i); [|exact H].
    apply update_status_names_trimmed, H.
Qed.

Lemma run_names_trimmed (rs : list Request) :
  forall db, names_trimmed db -> names_trimmed (run db rs).
Proof.
  induction rs as [|r rs IH]; intros db H; [exact H|].
  apply IH, handle_names_trimmed, H.
Qed.

Example register_blank_name :
  register seeded_db 0 (form_for [32; 9; 10; 160; 12288]%N pharmacy)
  = (seeded_db, error_response "Name and department are required" 400).
Proof. vm_compute. reflexivity. Qed.

Example register_padded_name :
  patients (fst (register seeded_db 0
                   (form_for ([32; 9]%N ++ lit "Alice B" ++ [10; 32]%N)
                             ([32]%N ++ pharmacy ++ [32]%N))))
  = [Patient.mk 1 (lit "Alice B") pharmacy 1 0 Waiting].
Proof. vm_compute. reflexivity. Qed.

(** ** Hospital overview *)

Lemma filter_status_without_cancelled (s : Status) (rows : list Patient.t) :
  s <> Cancelled ->
  filter (fun p => Status_eqb (Patient.status p) s)
         (filter (fun p => negb (Status_eqb (Patient.status p) Cancelled))
                 rows)
  = filter (fun p => Status_eqb (Patient.status p) s) rows.
Proof.
  intros Hs. induction rows as [|p rows IH]; [reflexivity|].
  cbn [filter].
  destruct (Patient.status p) eqn:Hp, s; cbn [Status_eqb negb filter];
    rewrite ?Hp; cbn [Status_eqb]; congruence.
Qed.

Lemma count_by_status (rows : list Patient.t) :
  count rows
  = count (filter (fun p => Status_eqb (Patient.status p) Waiting) rows)
    + count (filter (fun p => Status_eqb (Patient.status p) Served) rows)
    + count (filter (fun p => Status_eqb (Patient.status p) Cancelled) rows).
Proof.
  unfold count. induction rows as [|p rows IH]; simpl; [reflexivity|].
  destruct (Patient.status p); simpl List.length; lia.
Qed.

(** C10: the overview reports the number of waiting records, the number
    of served records and their sum as [total_patients]; cancelled records
    enter none of its fields: the answer is the one the database without
    them gets, and [total_patients] falls short of the number of records
    by the number of cancelled ones. *)
Theorem hospital_overview_totals (db : DB) :
  let resp := hospital_overview db in
  let total_waiting := count (Patient_filter_by_status db Waiting) in
  let total_served := count (Patient_filter_by_status db Served) in
  json_get "total_waiting" (body resp) = Some (JInt total_waiting)
  /\ json_get "total_served" (body resp) = Some (JInt total_served)
  /\ json_get "total_patients" (body resp)
     = Some (JInt (total_waiting + total_served))
  /\ total_waiting + total_served
     = count (patients db) - count (Patient_filter_by_status db Cancelled)
  /\ hospital_overview (without_cancelled db) = resp.
Proof.
  cbv zeta. repeat apply conj; try reflexivity.
  - unfold Patient_filter_by_status.
    rewrite (count_by_status (patients db)). lia.
  - unfold hospital_overview, Patient_filter_by_status, without_cancelled.
    cbn [patients].
    rewrite !filter_status_without_cancelled by discriminate.
    reflexivity.
Qed.

Example overview_skips_cancelled :
  json_get "total_patients" (body (hospital_overview db_alice_cancelled))
  = Some (JInt 0).
Proof. reflexivity. Qed.

Example bob_after_alice_leaves :
  let db2 := fst (register db_alice 1 bob) in
  let db3 := fst (leave_queue db2 (Some 1)) in
  let resp := patient_status_api db3 2 in
  (json_get "position" (body resp), json_get "waiting_time" (body resp),
   map Patient.status (patients db3))
  = (Some (JInt 1), Some (JInt 0), [Cancelled; Waiting]).
Proof. vm_compute. reflexivity. Qed.

(** ** Leaving the queue and being served *)

Lemma Patient_get_found (db : DB) (i : Z) (p : Patient.t) :
  Patient_get db i = Some p -> In p (patients db) /\ Patient.id p = i.
Proof.
  unfold Patient_get. intros H. apply find_some in H.
  destruct H as [Hin Hid]. apply Z.eqb_eq in Hid. auto.
Qed.

Lemma Patient_get_update_status (db : DB) (pid : Z) (s : Status) (i : Z) :
  Patient_get (update_status db pid s) i
  = option_map (fun p => if Patient.id p =? pid
                         then Patient.set_status s p else p)
               (Patient_get db i).
Proof.
  unfold Patient_get, update_status; cbn [patients].
  induction (patients db) as [|x l IH]; [reflexivity|].
  cbn [map find].
  destruct (Patient.id x =? pid) eqn:Hx; cbn [Patient.set_status Patient.id];
    destruct (Patient.id x =? i); cbn [option_map]; rewrite ?Hx; auto.
Qed.

Lemma Patient_get_update_other (db : DB) (pid : Z) (s : Status) (i : Z) :
  i <> pid ->
  Patient_get (update_status db pid s) i = Patient_get db i.
Proof.
  intros Hi. rewrite Patient_get_update_status.
  destruct (Patient_get db i) as [p|] eqn:Hp; [|reflexivity].
  apply Patient_get_found in Hp. destruct Hp as [_ Hid].
  cbn [option_map]. destruct (Z.eqb_spec (Patient.id p) pid); congruence.
Qed.

Lemma truthy_nonzero (pid : Z) : pid <> 0 -> truthy (Some pid) = Some pid.
Proof. intros H. cbn. destruct (Z.eqb_spec pid 0); congruence. Qed.

(** X1: a POST to [/api/leave_queue] without an id, or with the id 0, is
    answered 400; with an id that SQLite can bind and that no record
    carries, 404; with the id of a record that is not waiting, 400; and
    whenever the answer is not 200 the database is as it was. *)
Theorem leave_queue_rejects (db : DB) :
  leave_queue db None = (db, error_response "Patient ID required" 400)
  /\ leave_queue db (Some 0) = (db, error_response "Patient ID required" 400)
  /\ (forall pid,
         pid <> 0 ->
         sqlite_integer pid = true ->
         (forall p, In p (patients db) -> Patient.id p <> pid) ->
         leave_queue db (Some pid)
         = (db, error_response "Patient not found" 404))
  /\ (forall pid p,
         pid <> 0 ->
         Patient_get db pid = Some p ->
         Patient.status p <> Waiting ->
         leave_queue db (Some pid)
         = (db, error_response "Patient is not in queue" 400))
  /\ (forall patient_id,
         status_code (snd (leave_queue db patient_id)) <> 200 ->
         fst (leave_queue db patient_id) = db).
Proof.
  repeat apply conj; try reflexivity.
  - intros pid Hpid _ Hnone. unfold leave_queue.
    rewrite (truthy_nonzero pid Hpid).
    destruct (Patient_get db pid) as [p|] eqn:Hp; [|reflexivity].
    apply Patient_get_found in Hp. destruct Hp as [Hin Hid].
    elim (Hnone p Hin Hid).
  - intros pid p Hpid Hp Hs. unfold leave_queue.
    rewrite (truthy_nonzero pid Hpid), Hp.
    destruct (Patient.status p); [congruence|reflexivity|reflexivity].
  - intros patient_id. apply leave_queue_unchanged.
Qed.

(** X2: leaving the queue with the id of a waiting record is answered 200
    with the message naming the patient and the department; the record
    under that id becomes cancelled and has no position any more, every
    other id finds the record it found before, and the table keeps its
    length and the catalog its rows. *)
Theorem leave_queue_cancels (db : DB) (pid : Z) (p : Patient.t) :
  pid <> 0 ->
  Patient_get db pid = Some p ->
  Patient.status p = Waiting ->
  let db' := fst (leave_queue db (Some pid)) in
  snd (leave_queue db (Some pid))
  = jsonify (JObj [("success"%string, JBool true);
                   ("message"%string,
                    JStr (Patient.name p ++ lit " has left the queue for "
                          ++ Patient.department p))])
  /\ Patient_get db' pid = Some (Patient.set_status Cancelled p)
  /\ get_queue_position db' pid = None
  /\ (forall i, i <> pid -> Patient_get db' i = Patient_get db i)
  /\ List.length (patients db') = List.length (patients db)
  /\ departments db' = departments db.
Proof.
  intros Hpid Hp Hs. cbv zeta. unfold leave_queue.
  rewrite (truthy_nonzero pid Hpid), Hp, Hs. cbn [Status_eqb negb fst snd].
  destruct (Patient_get_found db pid p Hp) as [_ Hid]. rewrite Hid.
  assert (Hget : Patient_get (update_status db pid Cancelled) pid
                 = Some (Patient.set_status Cancelled p)).
  { rewrite Patient_get_update_status, Hp. cbn [option_map].
    rewrite Hid, Z.eqb_refl. reflexivity. }
  repeat apply conj; try reflexivity.
  - exact Hget.
  - unfold get_queue_position. rewrite Hget. reflexivity.
  - intros i Hi. apply Patient_get_update_other, Hi.
  - unfold update_status; cbn [patients]. apply length_map.
Qed.

Lemma leave_queue_cancels_witness :
  Patient_get db_alice_bob 1 = Some (alice_row Waiting)
  /\ Patient_get (fst (leave_queue db_alice_bob (Some 1))) 1
     = Some (alice_row Cancelled)
  /\ Patient_get (fst (leave_queue db_alice_bob (Some 1))) 2 = Some bob_row.
Proof.
  assert (Hp : Patient_get db_alice_bob 1 = Some (alice_row Waiting))
    by (vm_compute; reflexivity).
  assert (H1 : 1 <> 0) by lia.
  pose proof (leave_queue_cancels db_alice_bob 1 (alice_row Waiting)
                H1 Hp eq_refl) as H.
  cbv zeta in H. destruct H as [_ [Hget [_ [Hother _]]]].
  split; [exact Hp|]. split; [exact Hget|].
  rewrite Hother by lia. vm_compute. reflexivity.
Defined.

(** X3: cancelled and served are final for [leave_queue]: once a record
    has left the queue, or has been marked served, a further POST to
    [/api/leave_queue] with its id is answered 400 and changes nothing. *)
Theorem leave_queue_final (db : DB) (pid : Z) (p : Patient.t) :
  pid <> 0 ->
  Patient_get db pid = Some p ->
  (Patient.status p = Waiting ->
   leave_queue (fst (leave_queue db (Some pid))) (Some pid)
   = (fst (leave_queue db (Some pid)),
      error_response "Patient is not in queue" 400))
  /\ leave_queue (fst (mark_served db (Some pid))) (Some pid)
     = (fst (mark_served db (Some pid)),
        error_response "Patient is not in queue" 400).
Proof.
  intros Hpid Hp.
  destruct (Patient_get_found db pid p Hp) as [_ Hid].
  assert (Hget : forall s, Patient_get (update_status db pid s) pid
                           = Some (Patient.set_status s p)).
  { intros s. rewrite Patient_get_update_status, Hp. cbn [option_map].
    rewrite Hid, Z.eqb_refl. reflexivity. }
  split.
  - intros Hs. unfold leave_queue at 2 3.
    rewrite (truthy_nonzero pid Hpid), Hp, Hs, Hid.
    cbn [Status_eqb negb fst]. unfold leave_queue.
    rewrite (truthy_nonzero pid Hpid), Hget. reflexivity.
  - unfold mark_served.
    rewrite (truthy_nonzero pid Hpid), Hp, Hid.
    cbn [fst]. unfold leave_queue.
    rewrite (truthy_nonzero pid Hpid), Hget. reflexivity.
Qed.

Lemma leave_queue_final_witness :
  status_code
    (snd (leave_queue (fst (leave_queue db_alice_bob (Some 1))) (Some 1)))
  = 400.
Proof.
  assert (H1 : 1 <> 0) by lia.
  assert (Hp : Patient_get db_alice_bob 1 = Some (alice_row Waiting))
    by (vm_compute; reflexivity).
  rewrite (proj1 (leave_queue_final db_alice_bob 1 (alice_row Waiting)
                    H1 Hp) eq_refl).
  reflexivity.
Defined.

Lemma update_status_twice (db : DB) (pid : Z) (s : Status) :
  update_status (update_status db pid s) pid s = update_status db pid s.
Proof.
  unfold update_status; cbn [patients departments]. f_equal.
  rewrite map_map. apply map_ext. intros x.
  destruct (Patient.id x =? pid) eqn:Hx;
    cbn [Patient.set_status Patient.id]; rewrite Hx; reflexivity.
Qed.

(** X4: a POST to [/api/mark_served] without an id, or with the id 0, is
    answered 400 and one with an id that SQLite can bind and that no
    record carries 404, the database being left as it was; with the id of a record it is answered
    200, the record under that id is served from then on, every other id
    finds the record it found before, and marking it again changes
    nothing more. *)
Theorem mark_served_effect (db : DB) :
  mark_served db None = (db, error_response "Patient ID required" 400)
  /\ mark_served db (Some 0) = (db, error_response "Patient ID required" 400)
  /\ (forall pid,
         pid <> 0 ->
         sqlite_integer pid = true ->
         (forall p, In p (patients db) -> Patient.id p <> pid) ->
         mark_served db (Some pid)
         = (db, error_response "Patient not found" 404))
  /\ (forall pid p,
         pid <> 0 ->
         Patient_get db pid = Some p ->
         status_code (snd (mark_served db (Some pid))) = 200
         /\ Patient_get (fst (mark_served db (Some pid))) pid
            = Some (Patient.set_status Served p)
         /\ (forall i, i <> pid ->
                       Patient_get (fst (mark_served db (Some pid))) i
                       = Patient_get db i)
         /\ mark_served (fst (mark_served db (Some pid))) (Some pid)
            = mark_served db (Some pid)).
Proof.
  repeat apply conj; try reflexivity.
  - intros pid Hpid _ Hnone. unfold mark_served.
    rewrite (truthy_nonzero pid Hpid).
    destruct (Patient_get db pid) as [p|] eqn:Hp; [|reflexivity].
    apply Patient_get_found in Hp. destruct Hp as [Hin Hid].
    elim (Hnone p Hin Hid).
  - intros pid p Hpid Hp.
    destruct (Patient_get_found db pid p Hp) as [_ Hid].
    assert (Hget : Patient_get (update_status db pid Served) pid
                   = Some (Patient.set_status Served p)).
    { rewrite Patient_get_update_status, Hp. cbn [option_map].
      rewrite Hid, Z.eqb_refl. reflexivity. }
    unfold mark_served.
    rewrite (truthy_nonzero pid Hpid), Hp, Hid. cbn [fst snd].
    rewrite ?Hget.
    cbn [Patient.set_status Patient.id Patient.name]. rewrite ?Hid.
    repeat apply conj; try reflexivity.
    + intros i Hi. apply Patient_get_update_other, Hi.
    + rewrite update_status_twice. reflexivity.
Qed.

(** ** Accepted registrations *)

Lemma filter_by_known_name (rows : list Department.t) (d : Department.t) :
  In d rows ->
  first (filter (fun d' => PyStr.eqb (Department.name d')
                                     (Department.name d)) rows) <> None.
Proof.
  induction rows as [|x rows IH]; cbn [In filter]; [tauto|].
  intros [->|H].
  - rewrite PyStrFacts.eqb_refl. discriminate.
  - destruct (PyStr.eqb _ _); [discriminate | exact (IH H)].
Qed.

(** Every waiting record of a department carries a number below the next
    number of the department. *)
Lemma waiting_below_next (db : DB) (dept : pystr) (old : Patient.t) :
  In old (patients db) ->
  PyStr.eqb (Patient.department old) dept = true ->
  Patient.status old = Waiting ->
  Patient.queue_number old < get_next_queue_number db dept.
Proof.
  intros Hin Hd Hs.
  rewrite get_next_queue_number_maximum. unfold nextQueueNumber_spec.
  assert (Hw : In (Patient.queue_number old) (waiting_queue_numbers db dept)).
  { unfold waiting_queue_numbers, Patient_filter_by.
    apply in_map, filter_In. split; [assumption|].
    rewrite Hd, Hs. reflexivity. }
  destruct (maximum_bound _ _ Hw) as [m [Hmax Hm]].
  rewrite Hmax. lia.
Qed.

(** The record appended with the next number of its department stands
    behind every waiting record of the department. *)
Lemma get_queue_position_added (db : DB) (p : Patient.t) :
  Patient.id p = next_rowid (map Patient.id (patients db)) ->
  Patient.status p = Waiting ->
  Patient.queue_number p = get_next_queue_number db (Patient.department p) ->
  get_queue_position (mkDB (departments db) (patients db ++ [p]))
                     (Patient.id p)
  = Some (count (Patient_filter_by db (Patient.department p) Waiting) + 1).
Proof.
  intros Hid Hs Hq. unfold get_queue_position.
  rewrite (Patient_get_added db p Hid), Hs.
  cbn [Status_eqb negb patients]. do 2 f_equal.
  unfold count, Patient_filter_by. do 2 f_equal.
  rewrite filter_app. cbn [filter].
  rewrite Z.ltb_irrefl, andb_false_r, app_nil_r.
  apply filter_ext_in. intros old Hin.
  destruct (PyStr.eqb (Patient.department old) (Patient.department p))
    eqn:Hd; [|reflexivity].
  destruct (Patient.status old) eqn:Hso; try reflexivity.
  cbn [Status_eqb andb].
  apply Z.ltb_lt. rewrite Hq. apply waiting_below_next; assumption.
Qed.

Lemma Patient_filter_by_added (db : DB) (p : Patient.t) :
  Patient.status p = Waiting ->
  count (Patient_filter_by (mkDB (departments db) (patients db ++ [p]))
                           (Patient.department p) Waiting)
  = count (Patient_filter_by db (Patient.department p) Waiting) + 1.
Proof.
  intros Hs. unfold count, Patient_filter_by; cbn [patients].
  rewrite filter_app. cbn [filter].
  rewrite PyStrFacts.eqb_refl, Hs. cbn [Status_eqb andb].
  rewrite length_app. cbn [List.length]. lia.
Qed.

(** The answer and the new table of a registration that passes the two
    checks of the handler. *)
Lemma register_passed (db : DB) (now : Z) (form : Form) (d : Department.t) :
  PyStr.strip (form_get (form_name form) []) <> [] ->
  PyStr.strip (form_get (form_department form) []) <> [] ->
  first (Department_filter_by_name db
           (PyStr.strip (form_get (form_department form) []))) = Some d ->
  let department := PyStr.strip (form_get (form_department form) []) in
  let p := Patient.mk (next_rowid (map Patient.id (patients db)))
                      (PyStr.strip (form_get (form_name form) []))
                      department (get_next_queue_number db department)
                      now Waiting in
  let db' := mkDB (departments db) (patients db ++ [p]) in
  let position := count (Patient_filter_by db department Waiting) + 1 in
  register db now form
  = (db',
     mkResponse 200
       (JObj [("success"%string, JBool true);
              ("patient_id"%string, JInt (Patient.id p));
              ("queue_number"%string, JInt (Patient.queue_number p));
              ("position"%string, JInt position);
              ("waiting_time"%string,
               JInt (calculate_waiting_time db department position));
              ("crowd_level"%string,
               json_of_crowd (get_crowd_level position))])
       (Some (Patient.id p))).
Proof.
  intros Hn Hd Hdept. cbv zeta. unfold register.
  destruct (PyStr.strip (form_get (form_name form) [])) as [|c n];
    [congruence|].
  destruct (PyStr.strip (form_get (form_department form) [])) as [|c' dn];
    [congruence|].
  cbn [PyStr.is_empty orb]. rewrite Hdept. unfold add_patient.
  set (p := Patient.mk _ _ _ _ _ _).
  rewrite (get_queue_position_added db p eq_refl eq_refl eq_refl).
  change (c' :: dn) with (Patient.department p).
  rewrite (Patient_filter_by_added db p eq_refl).
  reflexivity.
Qed.

Lemma lstrip_trimmed (s : pystr) :
  PyStr.starts_with_space s = false -> PyStr.lstrip s = s.
Proof. destruct s as [|c s]; cbn; [reflexivity|]. intros ->. reflexivity. Qed.

Lemma rstrip_trimmed (s : pystr) :
  PyStr.ends_with_space s = false -> PyStr.rstrip s = s.
Proof.
  induction s as [|c s IH]; [reflexivity|].
  destruct s as [|x s].
  - cbn. intros ->. reflexivity.
  - intros H.
    change (PyStr.rstrip (c :: x :: s))
      with (match PyStr.rstrip (x :: s) with
            | [] => if PyStr.isspace c then [] else [c]
            | r => c :: r
            end).
    rewrite IH by exact H. reflexivity.
Qed.

(** Stripping a stripped string changes nothing. *)
Lemma strip_strip (s : pystr) : PyStr.strip (PyStr.strip s) = PyStr.strip s.
Proof.
  destruct (PyStrFacts.strip_trimmed s) as [Hs He].
  unfold PyStr.strip at 1.
  rewrite (lstrip_trimmed _ Hs). apply rstrip_trimmed, He.
Qed.

(** C9: [register] strips the name and the department before it validates
    and stores them.  A name or a department made of white space only is
    answered with status 400 and nothing is stored.  A submission whose
    stripped name is not empty and whose stripped department is the name
    of a department of the catalog is answered 200, whatever white space
    surrounds the two fields, and the record stored carries the stripped
    name and department; the answer and the new database are those of the
    submission of the stripped fields.  A record that is stored carries
    the stripped name, which is not empty and has no white space at either
    end; and so does every record of a patient table that a history of
    requests has filled. *)
Theorem register_strips (db : DB) (now : Z) (form : Form) :
  (forallb PyStr.isspace (form_get (form_name form) []) = true
   \/ forallb PyStr.isspace (form_get (form_department form) []) = true ->
   status_code (snd (register db now form)) = 400
   /\ fst (register db now form) = db)
  /\ (forall p,
         created db (fst (register db now form)) p ->
         Patient.name p = PyStr.strip (form_get (form_name form) [])
         /\ Patient.department p
            = PyStr.strip (form_get (form_department form) [])
         /\ Patient.name p <> []
         /\ PyStr.trimmed (Patient.name p))
  /\ (forall rs p,
         patients db = [] ->
         In p (patients (run db rs)) ->
         PyStr.trimmed (Patient.name p))
  /\ (PyStr.strip (form_get (form_name form) []) <> [] ->
      PyStr.strip (form_get (form_department form) []) <> [] ->
      (exists d, In d (departments db)
                 /\ Department.name d
                    = PyStr.strip (form_get (form_department form) [])) ->
      status_code (snd (register db now form)) = 200
      /\ fst (register db now form)
         = mkDB (departments db)
                (patients db
                 ++ [Patient.mk
                       (next_rowid (map Patient.id (patients db)))
                       (PyStr.strip (form_get (form_name form) []))
                       (PyStr.strip (form_get (form_department form) []))
                       (get_next_queue_number db
                          (PyStr.strip (form_get (form_department form) [])))
                       now Waiting]))
  /\ register db now form
     = register db now
         (mkForm (Some (PyStr.strip (form_get (form_name form) [])))
                 (Some (PyStr.strip (form_get (form_department form) [])))).
Proof.
  repeat apply conj.
  - intros H. unfold register.
    destruct H as [H|H]; rewrite (PyStrFacts.strip_spaces _ H);
      cbn [PyStr.is_empty orb]; rewrite ?orb_true_r; split; reflexivity.
  - intros p [Hin Hnot].
    destruct (register_cases db now form) as [resp _|q resp Hq Hn _ _ _ _];
      cbn [fst patients] in Hin; [contradiction|].
    apply in_app_or in Hin. destruct Hin as [Hin|[<-|[]]]; [contradiction|].
    repeat split; try (subst q; reflexivity); try exact Hn;
      subst q; apply PyStrFacts.strip_trimmed.
  - intros rs p H0 Hin.
    assert (Ht : names_trimmed (run db rs)).
    { apply run_names_trimmed. unfold names_trimmed. rewrite H0.
      constructor. }
    unfold names_trimmed in Ht. rewrite Forall_forall in Ht.
    apply Ht, Hin.
  - intros Hn Hd [d [Hin Hname]].
    destruct (first (Department_filter_by_name db
                (PyStr.strip (form_get (form_department form) []))))
      as [d'|] eqn:Hf.
    + rewrite (register_passed db now form d' Hn Hd Hf).
      split; reflexivity.
    + elim (filter_by_known_name (departments db) d Hin).
      rewrite Hname. exact Hf.
  - unfold register. cbn [form_get form_name form_department].
    rewrite !strip_strip. reflexivity.
Qed.

Lemma register_strips_witness :
  status_code (snd (register seeded_db 0 alice_padded)) = 200
  /\ patients (fst (register seeded_db 0 alice_padded))
     = [Patient.mk 1 (lit "Alice B") pharmacy 1 0 Waiting].
Proof.
  destruct (register_strips seeded_db 0 alice_padded)
    as [_ [_ [_ [Hacc _]]]].
  assert (Hn : PyStr.strip (form_get (form_name alice_padded) []) <> [])
    by (vm_compute; discriminate).
  assert (Hd : PyStr.strip (form_get (form_department alice_padded) [])
               <> [])
    by (vm_compute; discriminate).
  destruct (Hacc Hn Hd) as [H200 Hdb].
  - exists (Department.mk 2 pharmacy 5 (lit "Collect prescribed medicines")).
    split; [vm_compute; right; left; reflexivity | vm_compute; reflexivity].
  - split; [exact H200|]. rewrite Hdb. vm_compute. reflexivity.
Defined.

Lemma register_200 (db : DB) (now : Z) (form : Form) :
  status_code (snd (register db now form)) = 200 ->
  PyStr.strip (form_get (form_name form) []) <> []
  /\ PyStr.strip (form_get (form_department form) []) <> []
  /\ exists d,
      first (Department_filter_by_name db
               (PyStr.strip (form_get (form_department form) []))) = Some d.
Proof.
  intros H. revert H.
  destruct (register_cases db now form) as [resp Hr|p resp Hp Hn Hd Hf _ _];
    cbn [snd]; intros H; [congruence|].
  subst p. cbn [Patient.name Patient.department] in Hn, Hd, Hf.
  repeat split; try assumption.
  destruct (first _) as [d|]; [exists d; reflexivity | congruence].
Qed.

Lemma first_filter_by_name_found (db : DB) (n : pystr) (d : Department.t) :
  first (Department_filter_by_name db n) = Some d ->
  In d (departments db) /\ Department.name d = n.
Proof.
  unfold Department_filter_by_name. intros H.
  assert (Hin : In d (filter (fun d' => PyStr.eqb (Department.name d') n)
                             (departments db))).
  { destruct (filter _ _) as [|x l]; [discriminate|].
    injection H as ->. left; reflexivity. }
  apply filter_In in Hin. destruct Hin as [Hin He].
  apply PyStrFacts.eqb_eq in He. auto.
Qed.

(** X5: a POST to [/register] is answered 200 exactly when the stripped
    name and the stripped department are not empty and the stripped
    department is the name of a department of the catalog; every other
    answer is 400.  On 200 one waiting record is appended, with the next
    primary key, the stripped name and department, the next queue number
    of the department and the time of the request; the answer and the
    session carry its id, the answer its queue number; the catalog is left
    as it was. *)
Theorem register_accepts (db : DB) (now : Z) (form : Form) :
  let name := PyStr.strip (form_get (form_name form) []) in
  let department := PyStr.strip (form_get (form_department form) []) in
  let resp := snd (register db now form) in
  let p := Patient.mk (next_rowid (map Patient.id (patients db)))
                      name department
                      (get_next_queue_number db department) now Waiting in
  (status_code resp = 200 <->
   name <> [] /\ department <> []
   /\ exists d, In d (departments db) /\ Department.name d = department)
  /\ (status_code resp = 200 \/ status_code resp = 400)
  /\ (status_code resp = 200 ->
      fst (register db now form)
      = mkDB (departments db) (patients db ++ [p])
      /\ session_patient_id resp = Some (Patient.id p)
      /\ json_int "patient_id" (body resp) = Some (Patient.id p)
      /\ json_int "queue_number" (body resp)
         = Some (get_next_queue_number db department)).
Proof.
  cbv zeta. repeat apply conj.
  - intros H. destruct (register_200 db now form H) as [Hn [Hd [d Hf]]].
    repeat split; try assumption.
    exists d. apply first_filter_by_name_found, Hf.
  - intros [Hn [Hd [d [Hin Hname]]]].
    destruct (first (Department_filter_by_name db
                (PyStr.strip (form_get (form_department form) []))))
      as [d'|] eqn:Hf.
    + rewrite (register_passed db now form d' Hn Hd Hf). reflexivity.
    + elim (filter_by_known_name (departments db) d Hin).
      rewrite Hname. exact Hf.
  - destruct (register_cases db now form) as [resp Hr|p resp _ _ _ _ Hr _];
      cbn [snd]; auto.
  - intros H. destruct (register_200 db now form H) as [Hn [Hd [d Hf]]].
    rewrite (register_passed db now form d Hn Hd Hf).
    repeat split; reflexivity.
Qed.

(** X6: the patient of an accepted registration is the last in line: the
    position in the answer is the number of records then waiting in the
    department, the new one included, which is one more than before; the
    waiting time is that position less one, times the average service
    time of a department of the catalog with that name; and the crowd
    level is the one of that number. *)
Theorem register_last_in_line (db : DB) (now : Z) (form : Form) :
  status_code (snd (register db now form)) = 200 ->
  let department := PyStr.strip (form_get (form_department form) []) in
  let db' := fst (register db now form) in
  let resp := snd (register db now form) in
  let n := count (Patient_filter_by db' department Waiting) in
  json_int "position" (body resp) = Some n
  /\ get_queue_position db' (next_rowid (map Patient.id (patients db)))
     = Some n
  /\ n = count (Patient_filter_by db department Waiting) + 1
  /\ (exists d, In d (departments db)
                /\ Department.name d = department
                /\ json_int "waiting_time" (body resp)
                   = Some ((n - 1) * Department.average_service_time d))
  /\ json_get "crowd_level" (body resp)
     = Some (json_of_crowd (get_crowd_level n)).
Proof.
  intros H. destruct (register_200 db now form H) as [Hn [Hd [d Hf]]].
  cbv zeta. rewrite (register_passed db now form d Hn Hd Hf).
  cbn [fst snd body].
  set (p := Patient.mk _ _ _ _ _ _).
  change (PyStr.strip (form_get (form_department form) []))
    with (Patient.department p).
  rewrite (Patient_filter_by_added db p eq_refl).
  repeat apply conj; try reflexivity.
  - apply (get_queue_position_added db p); reflexivity.
  - exists d. destruct (first_filter_by_name_found _ _ _ Hf) as [Hin Hname].
    repeat split; try assumption.
    unfold json_int, calculate_waiting_time. cbn [json_get json_field].
    cbn [String.eqb Ascii.eqb Bool.eqb].
    change (Patient.department p)
      with (PyStr.strip (form_get (form_department form) [])).
    rewrite Hf. reflexivity.
Qed.

Lemma register_last_in_line_witness :
  json_int "position" (body (snd (register db_alice 1 bob))) = Some 2
  /\ json_int "waiting_time" (body (snd (register db_alice 1 bob)))
     = Some 5.
Proof.
  assert (H : status_code (snd (register db_alice 1 bob)) = 200)
    by (vm_compute; reflexivity).
  destruct (register_last_in_line db_alice 1 bob H) as [Hp _].
  split; [rewrite Hp; vm_compute; reflexivity | vm_compute; reflexivity].
Defined.

(** ** What every history of requests keeps *)

(** The three effects a request can have on the database: none, one
    record appended by an accepted registration, or the status of the
    records under one id set to cancelled or served. *)
Lemma handle_cases (db : DB) (r : Request) :
  fst (handle db r) = db
  \/ (exists p,
         fst (handle db r) = mkDB (departments db) (patients db ++ [p])
         /\ Patient.id p = next_rowid (map Patient.id (patients db))
         /\ Patient.status p = Waiting
         /\ Patient.queue_number p
            = get_next_queue_number db (Patient.department p)
         /\ first (Department_filter_by_name db (Patient.department p))
            <> None)
  \/ (exists pid s, s <> Waiting
                    /\ fst (handle db r) = update_status db pid s).
Proof.
  destruct r as [now form|patient_id|patient_id]; cbn [handle].
  - destruct (register_cases db now form) as [resp _|p resp Hp _ _ Hf _ _];
      [left; reflexivity|].
    right; left. exists p. subst p. repeat split; try reflexivity.
    exact Hf.
  - unfold leave_queue.
    destruct (truthy patient_id) as [pid|]; [|left; reflexivity].
    destruct (Patient_get db pid) as [p|]; [|left; reflexivity].
    destruct (negb _); [left; reflexivity|].
    right; right. exists (Patient.id p), Cancelled.
    split; [discriminate | reflexivity].
  - unfold mark_served.
    destruct (truthy patient_id) as [pid|]; [|left; reflexivity].
    destruct (Patient_get db pid) as [p|]; [|left; reflexivity].
    right; right. exists (Patient.id p), Served.
    split; [discriminate | reflexivity].
Qed.

Lemma run_invariant (P : DB -> Prop) :
  (forall db r, P db -> P (fst (handle db r))) ->
  forall rs db, P db -> P (run db rs).
Proof.
  intros Hstep rs. induction rs as [|r rs IH]; intros db H; [exact H|].
  cbn [run]. apply IH, Hstep, H.
Qed.

Lemma increasing_snoc (l : list Z) (x : Z) :
  increasing l -> Forall (fun y => y < x) l -> increasing (l ++ [x]).
Proof.
  induction l as [|y l IH]; cbn [increasing app].
  - intros _ _. split; [constructor | exact I].
  - intros [Hy Hl] Hx. inversion Hx as [|? ? Hyx Hlx]; subst.
    split; [|apply IH; assumption].
    apply Forall_app. split; [exact Hy|].
    constructor; [exact Hyx | constructor].
Qed.

Lemma increasing_NoDup (l : list Z) : increasing l -> NoDup l.
Proof.
  induction l as [|x l IH]; cbn [increasing]; [constructor|].
  intros [Hx Hl]. constructor; [|apply IH, Hl].
  intros Hin. rewrite Forall_forall in Hx. specialize (Hx x Hin). lia.
Qed.

(** Setting a status other than waiting removes numbers from the waiting
    numbers of a department and keeps the order of the others. *)
Lemma waiting_numbers_update (dept : pystr) (pid : Z) (s : Status)
  (rows : list Patient.t) :
  s <> Waiting ->
  let f := fun p => PyStr.eqb (Patient.department p) dept
                    && Status_eqb (Patient.status p) Waiting in
  let upd := fun p => if Patient.id p =? pid
                      then Patient.set_status s p else p in
  (forall y, In y (map Patient.queue_number (filter f (map upd rows))) ->
             In y (map Patient.queue_number (filter f rows)))
  /\ (increasing (map Patient.queue_number (filter f rows)) ->
      increasing (map Patient.queue_number (filter f (map upd rows)))).
Proof.
  intros Hs f upd.
  assert (Hupd : forall x, f (upd x) = true ->
                           f x = true
                           /\ Patient.queue_number (upd x)
                              = Patient.queue_number x).
  { intros x. unfold f, upd.
    destruct (Patient.id x =? pid); [|auto].
    cbn [Patient.set_status Patient.department Patient.status].
    destruct s; [congruence| |]; cbn [Status_eqb];
      rewrite andb_false_r; discriminate. }
  induction rows as [|x rows [IHin IHinc]]; [split; auto|].
  cbn [map filter].
  destruct (f (upd x)) eqn:Hfu.
  - destruct (Hupd x Hfu) as [Hfx Hq]. rewrite Hfx. cbn [map].
    rewrite Hq. split.
    + intros y [->|Hy]; [left; reflexivity | right; apply IHin, Hy].
    + cbn [increasing]. intros [Hx Hinc]. split; [|apply IHinc, Hinc].
      rewrite Forall_forall in *. intros y Hy. apply Hx, IHin, Hy.
  - split.
    + intros y Hy. destruct (f x); [right|]; apply IHin, Hy.
    + destruct (f x); cbn [map increasing]; [intros [_ Hinc]|intros Hinc];
        apply IHinc, Hinc.
Qed.

Lemma waiting_numbers_increasing_step (db : DB) (r : Request) :
  (forall dept, increasing (waiting_queue_numbers db dept)) ->
  forall dept, increasing (waiting_queue_numbers (fst (handle db r)) dept).
Proof.
  intros H dept.
  destruct (handle_cases db r) as [->|[[p [-> [_ [Hs [Hq _]]]]]|[pid [s [Hs ->]]]]].
  - apply H.
  - unfold waiting_queue_numbers, Patient_filter_by; cbn [patients].
    rewrite filter_app, map_app. cbn [filter]. rewrite Hs.
    cbn [Status_eqb]. rewrite andb_true_r.
    destruct (PyStr.eqb (Patient.department p) dept) eqn:Hd;
      [|cbn [map]; rewrite app_nil_r; apply H].
    cbn [map]. apply increasing_snoc; [apply H|].
    rewrite Forall_forall. intros y Hy.
    apply in_map_iff in Hy. destruct Hy as [old [<- Hold]].
    apply filter_In in Hold. destruct Hold as [Hin Hf].
    apply andb_true_iff in Hf. destruct Hf as [Hfd Hfs].
    apply Status_eqb_eq in Hfs.
    apply PyStrFacts.eqb_eq in Hd. subst dept.
    rewrite Hq. apply waiting_below_next; assumption.
  - unfold waiting_queue_numbers, Patient_filter_by, update_status;
      cbn [patients].
    apply (waiting_numbers_update dept pid s (patients db) Hs), H.
Qed.

(** X7: from an empty patient table, after every history of requests,
    the queue numbers of the waiting records of a department increase
    strictly in the order the records were created, so no two waiting
    records of a department share a queue number. *)
Theorem waiting_numbers_increasing (db0 : DB) (rs : list Request)
  (dept : pystr) :
  patients db0 = [] ->
  increasing (waiting_queue_numbers (run db0 rs) dept)
  /\ NoDup (waiting_queue_numbers (run db0 rs) dept).
Proof.
  intros H0.
  assert (H : forall d, increasing (waiting_queue_numbers (run db0 rs) d)).
  { apply (run_invariant
             (fun db => forall d, increasing (waiting_queue_numbers db d))).
    - apply waiting_numbers_increasing_step.
    - intros d. unfold waiting_queue_numbers, Patient_filter_by.
      rewrite H0. exact I. }
  split; [apply H | apply increasing_NoDup, H].
Qed.

Lemma waiting_numbers_increasing_witness :
  waiting_queue_numbers
    (run seeded_db [POST_register 0 alice; POST_register 1 bob;
                    POST_leave_queue (Some 1); POST_register 2 carol])
    pharmacy = [2; 3]
  /\ NoDup [2; 3].
Proof.
  split; [vm_compute; reflexivity|].
  apply (proj2 (waiting_numbers_increasing seeded_db
                  [POST_register 0 alice; POST_register 1 bob;
                   POST_leave_queue (Some 1); POST_register 2 carol]
                  pharmacy eq_refl)).
Defined.

Lemma fold_max_seq (n s : nat) :
  fold_right Z.max 0 (map Z.of_nat (seq s n))
  = match n with
    | O => 0
    | S m => Z.of_nat (s + m)
    end.
Proof.
  revert s. induction n as [|n IH]; intros s; [reflexivity|].
  cbn [seq map fold_right]. rewrite IH.
  destruct n; lia.
Qed.

Lemma next_rowid_seq (n : nat) :
  next_rowid (map Z.of_nat (seq 1 n)) = Z.of_nat (S n).
Proof.
  unfold next_rowid. rewrite fold_max_seq. destruct n; lia.
Qed.

Lemma update_status_ids (db : DB) (pid : Z) (s : Status) :
  map Patient.id (patients (update_status db pid s))
  = map Patient.id (patients db).
Proof.
  unfold update_status; cbn [patients]. rewrite map_map.
  apply map_ext. intros x. destruct (Patient.id x =? pid); reflexivity.
Qed.

Lemma ids_from_one_step (db : DB) (r : Request) :
  ids_from_one db -> ids_from_one (fst (handle db r)).
Proof.
  unfold ids_from_one. intros H.
  destruct (handle_cases db r)
    as [->|[[p [-> [Hid _]]]|[pid [s [_ ->]]]]].
  - exact H.
  - cbn [patients]. rewrite map_app, length_app. cbn [map List.length].
    rewrite Nat.add_1_r, seq_S, map_app, <- H. cbn [map].
    rewrite Hid, H, next_rowid_seq. reflexivity.
  - rewrite update_status_ids. unfold update_status; cbn [patients].
    rewrite length_map. exact H.
Qed.

Lemma NoDup_seq_Z (n s : nat) : NoDup (map Z.of_nat (seq s n)).
Proof.
  revert s. induction n as [|n IH]; intros s; cbn [seq map];
    constructor; [|apply IH].
  intros Hin. apply in_map_iff in Hin. destruct Hin as [k [Hk Hin]].
  apply in_seq in Hin. lia.
Qed.

Lemma find_by_unique_id (rows : list Patient.t) (p : Patient.t) :
  NoDup (map Patient.id rows) ->
  In p rows ->
  find (fun x => Patient.id x =? Patient.id p) rows = Some p.
Proof.
  induction rows as [|x rows IH]; cbn [In map find]; [tauto|].
  intros Hnd [->|Hin].
  - rewrite Z.eqb_refl. reflexivity.
  - inversion Hnd as [|? ? Hnot Hnd']; subst.
    destruct (Z.eqb_spec (Patient.id x) (Patient.id p)) as [He|_].
    + elim Hnot. rewrite He. apply in_map, Hin.
    + apply IH; assumption.
Qed.

(** X8: from an empty patient table, after every history of requests,
    the primary keys of the records are 1, 2, ... in the order of
    creation; so every record has a key of its own, which is not 0, and
    [Patient.query.get] with the key of a record returns that record. *)
Theorem patient_ids_sequential (db0 : DB) (rs : list Request) :
  patients db0 = [] ->
  ids_from_one (run db0 rs)
  /\ NoDup (map Patient.id (patients (run db0 rs)))
  /\ forall p, In p (patients (run db0 rs)) ->
               Patient.id p <> 0
               /\ Patient_get (run db0 rs) (Patient.id p) = Some p.
Proof.
  intros H0.
  assert (H : ids_from_one (run db0 rs)).
  { apply (run_invariant ids_from_one ids_from_one_step).
    unfold ids_from_one. rewrite H0. reflexivity. }
  assert (Hnd : NoDup (map Patient.id (patients (run db0 rs))))
    by (rewrite H; apply NoDup_seq_Z).
  repeat split; try assumption.
  - assert (Hin : In (Patient.id p) (map Patient.id (patients (run db0 rs))))
      by (apply in_map; assumption).
    rewrite H in Hin. apply in_map_iff in Hin.
    destruct Hin as [k [Hk Hin]]. apply in_seq in Hin. lia.
  - apply find_by_unique_id; assumption.
Qed.

Lemma patient_ids_sequential_witness :
  map Patient.id
      (patients (run seeded_db [POST_register 0 alice;
                                POST_leave_queue (Some 1);
                                POST_register 2 carol]))
  = [1; 2].
Proof.
  apply (proj1 (patient_ids_sequential seeded_db
                  [POST_register 0 alice; POST_leave_queue (Some 1);
                   POST_register 2 carol] eq_refl)).
Defined.

Lemma keeps_refl (p : Patient.t) : keeps p p.
Proof. unfold keeps; tauto. Qed.

Lemma keeps_trans (p q r : Patient.t) : keeps p q -> keeps q r -> keeps p r.
Proof. unfold keeps. intuition congruence. Qed.

Lemma Forall2_keeps_refl (rows : list Patient.t) : Forall2 keeps rows rows.
Proof. induction rows; constructor; auto using keeps_refl. Qed.

Lemma Forall2_keeps_trans (l1 l2 l3 : list Patient.t) :
  Forall2 keeps l1 l2 -> Forall2 keeps l2 l3 -> Forall2 keeps l1 l3.
Proof.
  intros H. revert l3. induction H as [|x y l1 l2 Hxy _ IH]; intros l3 H3;
    inversion H3; subst; constructor; eauto using keeps_trans.
Qed.

Lemma extends_refl (rows : list Patient.t) : extends rows rows.
Proof.
  exists rows, []. rewrite app_nil_r. auto using Forall2_keeps_refl.
Qed.

Lemma extends_trans (l1 l2 l3 : list Patient.t) :
  extends l1 l2 -> extends l2 l3 -> extends l1 l3.
Proof.
  intros [k1 [a1 [-> H1]]] [k2 [a2 [-> H2]]].
  apply Forall2_app_inv_l in H2.
  destruct H2 as [k2a [k2b [Ha [Hb ->]]]].
  exists k2a, (k2b ++ a2). split; [symmetry; apply app_assoc|].
  eapply Forall2_keeps_trans; eassumption.
Qed.

Lemma extends_step (db : DB) (r : Request) :
  extends (patients db) (patients (fst (handle db r))).
Proof.
  destruct (handle_cases db r)
    as [->|[[p [-> _]]|[pid [s [Hs ->]]]]].
  - apply extends_refl.
  - exists (patients db), [p]. auto using Forall2_keeps_refl.
  - exists (patients (update_status db pid s)), [].
    rewrite app_nil_r. split; [reflexivity|].
    unfold update_status; cbn [patients].
    induction (patients db) as [|x l IH]; cbn [map]; constructor;
      [|exact IH].
    destruct (Patient.id x =? pid); [|apply keeps_refl].
    unfold keeps. cbn. repeat split; try reflexivity. congruence.
Qed.

(** X9: no request deletes, moves or rewrites a record: after every
    history of requests the table starts with the records it had, in
    their order, each with the id, name, department, queue number and
    timestamp it had, and waiting only if it was waiting before; new
    records come after them. *)
Theorem records_persist (db : DB) (rs : list Request) :
  extends (patients db) (patients (run db rs)).
Proof.
  revert db. induction rs as [|r rs IH]; intros db; [apply extends_refl|].
  cbn [run]. eapply extends_trans; [apply extends_step | apply IH].
Qed.

Lemma departments_known_step (db : DB) (r : Request) :
  departments_known db ->
  departments (fst (handle db r)) = departments db
  /\ departments_known (fst (handle db r)).
Proof.
  unfold departments_known. intros H.
  destruct (handle_cases db r)
    as [->|[[p [-> [_ [_ [_ Hf]]]]]|[pid [s [_ ->]]]]].
  - auto.
  - split; [reflexivity|]. cbn [patients departments].
    apply Forall_app. split; [exact H|]. constructor; [|constructor].
    destruct (first _) as [d|] eqn:Hd; [|congruence].
    exists d. apply first_filter_by_name_found, Hd.
  - split; [reflexivity|]. unfold update_status; cbn [patients departments].
    apply Forall_map. revert H. apply Forall_impl. intros x Hx.
    destruct (Patient.id x =? pid); exact Hx.
Qed.

(** X10: no request changes the catalog, and, from an empty patient
    table, after every history of requests the department of every
    record is the name of a department of the catalog. *)
Theorem departments_stay_known (db0 : DB) (rs : list Request) :
  patients db0 = [] ->
  departments (run db0 rs) = departments db0
  /\ departments_known (run db0 rs).
Proof.
  intros H0.
  apply (run_invariant
           (fun db => departments db = departments db0
                      /\ departments_known db)).
  - intros db r [Hd Hk].
    destruct (departments_known_step db r Hk) as [Hd' Hk'].
    split; [congruence | exact Hk'].
  - split; [reflexivity|]. unfold departments_known. rewrite H0.
    constructor.
Qed.

Lemma departments_stay_known_witness :
  departments (run seeded_db [POST_register 0 alice; POST_mark_served (Some 1)])
  = departments seeded_db.
Proof.
  apply (proj1 (departments_stay_known seeded_db
                  [POST_register 0 alice; POST_mark_served (Some 1)]
                  eq_refl)).
Defined.

(** ** Positions *)

Lemma filter_length_lt {A : Type} (f g : A -> bool) (l : list A) (a : A) :
  (forall x, f x = true -> g x = true) ->
  In a l -> g a = true -> f a = false ->
  (List.length (filter f l) < List.length (filter g l))%nat.
Proof.
  intros Hfg Hin Hga Hfa.
  assert (Hle : forall l', (List.length (filter f l')
                            <= List.length (filter g l'))%nat).
  { induction l' as [|x l' IH]; cbn [filter]; [lia|].
    destruct (f x) eqn:Hfx; [rewrite (Hfg x Hfx)|destruct (g x)];
      cbn [List.length]; lia. }
  induction l as [|x l IH]; cbn [In filter] in *; [tauto|].
  destruct Hin as [->|Hin].
  - rewrite Hga, Hfa. cbn [List.length]. specialize (Hle l). lia.
  - specialize (IH Hin).
    destruct (f x) eqn:Hfx; [rewrite (Hfg x Hfx)|destruct (g x)];
      cbn [List.length]; lia.
Qed.

(** X11: a position is at least 1 and at most the number of records
    waiting in the department of the patient: when [get_queue_position]
    returns a position, the id is that of a waiting record and the
    position lies between these bounds. *)
Theorem queue_position_bounds (db : DB) (patient_id pos : Z) :
  get_queue_position db patient_id = Some pos ->
  exists p,
    Patient_get db patient_id = Some p
    /\ Patient.status p = Waiting
    /\ 1 <= pos <= count (Patient_filter_by db (Patient.department p) Waiting).
Proof.
  unfold get_queue_position.
  destruct (Patient_get db patient_id) as [p|] eqn:Hp; [|discriminate].
  destruct (Patient.status p) eqn:Hs; cbn [Status_eqb negb];
    [|discriminate|discriminate].
  intros H. injection H as <-. exists p. repeat split; try assumption.
  - unfold count. lia.
  - destruct (Patient_get_found db patient_id p Hp) as [Hin _].
    unfold count, Patient_filter_by.
    pose proof (filter_length_lt
                  (fun x => PyStr.eqb (Patient.department x)
                                      (Patient.department p)
                            && Status_eqb (Patient.status x) Waiting
                            && (Patient.queue_number x
                                <? Patient.queue_number p))
                  (fun x => PyStr.eqb (Patient.department x)
                                      (Patient.department p)
                            && Status_eqb (Patient.status x) Waiting)
                  (patients db) p) as Hlt.
    cbv beta in Hlt.
    rewrite PyStrFacts.eqb_refl, Hs, Z.ltb_irrefl in Hlt.
    specialize (Hlt (fun x H => proj1 (proj1 (andb_true_iff _ _) H))
                    Hin eq_refl eq_refl).
    lia.
Qed.

Lemma queue_position_bounds_witness :
  exists p,
    Patient_get db_alice_bob 2 = Some p
    /\ Patient.status p = Waiting
    /\ 1 <= 2 <= count (Patient_filter_by db_alice_bob
                                           (Patient.department p) Waiting).
Proof.
  apply (queue_position_bounds db_alice_bob 2 2). vm_compute. reflexivity.
Defined.

Lemma count_ahead_lt (dept : pystr) (q1 q2 : Z) (rows : list Patient.t)
  (p : Patient.t) :
  In p rows ->
  Patient.department p = dept ->
  Patient.status p = Waiting ->
  Patient.queue_number p = q1 ->
  q1 < q2 ->
  count_ahead dept q1 rows < count_ahead dept q2 rows.
Proof.
  intros Hin Hd Hs Hq Hlt.
  rewrite <- !count_ahead_filter. unfold count.
  apply inj_lt. apply (filter_length_lt _ _ rows p).
  - intros x Hx. apply andb_true_iff in Hx. destruct Hx as [Hx Hxq].
    rewrite Hx. apply Z.ltb_lt in Hxq. apply Z.ltb_lt. lia.
  - exact Hin.
  - rewrite Hd, Hs, Hq, PyStrFacts.eqb_refl. apply Z.ltb_lt. exact Hlt.
  - rewrite Hq, Z.ltb_irrefl. apply andb_false_r.
Qed.

Lemma get_queue_position_waiting (db : DB) (i pos : Z) (p : Patient.t) :
  Patient_get db i = Some p ->
  get_queue_position db i = Some pos ->
  Patient.status p = Waiting
  /\ pos = count_ahead (Patient.department p) (Patient.queue_number p)
                       (patients db) + 1.
Proof.
  unfold get_queue_position. intros ->.
  destruct (Patient.status p); cbn [Status_eqb negb];
    [|discriminate|discriminate].
  rewrite count_ahead_filter. intros H. injection H as <-. auto.
Qed.

(** X12: positions order the waiting patients of a department as their
    queue numbers do: of two waiting records of one department, the one
    with the smaller queue number, and only that one, has the smaller
    position. *)
Theorem queue_positions_ordered (db : DB) (i1 i2 pos1 pos2 : Z)
  (p1 p2 : Patient.t) :
  Patient_get db i1 = Some p1 ->
  Patient_get db i2 = Some p2 ->
  get_queue_position db i1 = Some pos1 ->
  get_queue_position db i2 = Some pos2 ->
  Patient.department p1 = Patient.department p2 ->
  (Patient.queue_number p1 < Patient.queue_number p2 <-> pos1 < pos2).
Proof.
  intros H1 H2 Hpos1 Hpos2 Hd.
  destruct (get_queue_position_waiting db i1 pos1 p1 H1 Hpos1) as [Hs1 ->].
  destruct (get_queue_position_waiting db i2 pos2 p2 H2 Hpos2) as [Hs2 ->].
  destruct (Patient_get_found db i1 p1 H1) as [Hin1 _].
  destruct (Patient_get_found db i2 p2 H2) as [Hin2 _].
  rewrite Hd.
  assert (Hlt : forall p p' : Patient.t,
             In p (patients db) ->
             Patient.department p = Patient.department p2 ->
             Patient.status p = Waiting ->
             Patient.queue_number p < Patient.queue_number p' ->
             count_ahead (Patient.department p2) (Patient.queue_number p)
                         (patients db)
             < count_ahead (Patient.department p2) (Patient.queue_number p')
                           (patients db)).
  { intros p p' Hin Hdp Hsp Hq.
    apply (count_ahead_lt _ _ _ _ p); auto. }
  split.
  - intros Hq. specialize (Hlt p1 p2 Hin1 Hd Hs1 Hq). lia.
  - intros Hpos.
    destruct (Z.lt_trichotomy (Patient.queue_number p1)
                              (Patient.queue_number p2)) as [Hq|[Hq|Hq]].
    + exact Hq.
    + rewrite Hq in Hpos. lia.
    + specialize (Hlt p2 p1 Hin2 eq_refl Hs2 Hq). lia.
Qed.

Lemma queue_positions_ordered_witness :
  Patient.queue_number (alice_row Waiting) < Patient.queue_number bob_row
  <-> 1 < 2.
Proof.
  apply (queue_positions_ordered db_alice_bob 1 2 1 2
           (alice_row Waiting) bob_row);
    vm_compute; reflexivity.
Defined.

Lemma update_fresh (pid : Z) (s : Status) (rows : list Patient.t) :
  ~ In pid (map Patient.id rows) ->
  map (fun p => if Patient.id p =? pid then Patient.set_status s p else p)
      rows = rows.
Proof.
  induction rows as [|x rows IH]; cbn [map In]; [reflexivity|].
  intros H. rewrite IH by tauto.
  destruct (Z.eqb_spec (Patient.id x) pid); [tauto | reflexivity].
Qed.

(** With unique ids, setting the status of the record [a] changes the
    number of records that satisfy [f] by what [a] itself contributes
    before and after. *)
Lemma filter_update_length (f : Patient.t -> bool) (s : Status)
  (rows : list Patient.t) (a : Patient.t) :
  NoDup (map Patient.id rows) ->
  In a rows ->
  (List.length
     (filter f (map (fun p => if (Patient.id p =? Patient.id a)%Z
                              then Patient.set_status s p else p) rows))
   + (if f a then 1 else 0)
   = List.length (filter f rows)
     + (if f (Patient.set_status s a) then 1 else 0))%nat.
Proof.
  induction rows as [|x rows IH]; cbn [map In]; [tauto|].
  intros Hnd Hin. inversion Hnd as [|? ? Hnot Hnd']; subst.
  destruct Hin as [->|Hin].
  - rewrite Z.eqb_refl, (update_fresh _ _ _ Hnot). cbn [filter].
    destruct (f a), (f (Patient.set_status s a)); cbn [List.length]; lia.
  - destruct (Z.eqb_spec (Patient.id x) (Patient.id a)) as [He|_].
    + elim Hnot. rewrite He. apply in_map, Hin.
    + specialize (IH Hnd' Hin). cbn [filter].
      destruct (f x); cbn [List.length]; lia.
Qed.

Lemma get_queue_position_after_update (db : DB) (s : Status)
  (a p : Patient.t) (i pos : Z) :
  s <> Waiting ->
  NoDup (map Patient.id (patients db)) ->
  In a (patients db) ->
  Patient.status a = Waiting ->
  i <> Patient.id a ->
  Patient_get db i = Some p ->
  get_queue_position db i = Some pos ->
  get_queue_position (update_status db (Patient.id a) s) i
  = Some (if PyStr.eqb (Patient.department a) (Patient.department p)
             && (Patient.queue_number a <? Patient.queue_number p)
          then pos - 1 else pos).
Proof.
  intros Hs Hnd Hina Hsa Hi Hp Hpos.
  destruct (get_queue_position_waiting db i pos p Hp Hpos) as [Hsp ->].
  unfold get_queue_position.
  rewrite (Patient_get_update_other db _ s i Hi), Hp, Hsp.
  cbn [Status_eqb negb]. f_equal.
  rewrite <- count_ahead_filter. unfold count, update_status.
  cbn [patients].
  pose proof (filter_update_length
                (fun x => PyStr.eqb (Patient.department x)
                                    (Patient.department p)
                          && Status_eqb (Patient.status x) Waiting
                          && (Patient.queue_number x
                              <? Patient.queue_number p))
                s (patients db) a Hnd Hina) as H.
  cbv beta in H.
  cbn [Patient.set_status Patient.department Patient.status
       Patient.queue_number] in H.
  rewrite Hsa in H. cbn [Status_eqb] in H.
  replace (Status_eqb s Waiting) with false in H
    by (destruct s; [congruence|reflexivity|reflexivity]).
  rewrite andb_true_r, andb_false_r in H. cbn [andb] in H.
  destruct (PyStr.eqb (Patient.department a) (Patient.department p)
            && (Patient.queue_number a <? Patient.queue_number p)); lia.
Qed.

(** X13: with unique ids, when a waiting patient leaves the queue or is
    marked served, every other waiting patient of the same department
    with a larger queue number moves up by one position, and every other
    waiting patient keeps the position. *)
Theorem positions_after_departure (db : DB) (pid i pos : Z)
  (a p : Patient.t) :
  NoDup (map Patient.id (patients db)) ->
  pid <> 0 ->
  Patient_get db pid = Some a ->
  Patient.status a = Waiting ->
  i <> pid ->
  Patient_get db i = Some p ->
  get_queue_position db i = Some pos ->
  let pos' := if PyStr.eqb (Patient.department a) (Patient.department p)
                 && (Patient.queue_number a <? Patient.queue_number p)
              then pos - 1 else pos in
  get_queue_position (fst (leave_queue db (Some pid))) i = Some pos'
  /\ get_queue_position (fst (mark_served db (Some pid))) i = Some pos'.
Proof.
  intros Hnd Hpid Ha Hsa Hi Hp Hpos. cbv zeta.
  destruct (Patient_get_found db pid a Ha) as [Hina Hid]. subst pid.
  unfold leave_queue, mark_served.
  rewrite (truthy_nonzero _ Hpid), Ha, Hsa. cbn [Status_eqb negb fst].
  split; apply get_queue_position_after_update;
    try assumption; discriminate.
Qed.

Lemma positions_after_departure_witness :
  get_queue_position db_alice_bob 2 = Some 2
  /\ get_queue_position (fst (leave_queue db_alice_bob (Some 1))) 2
     = Some 1.
Proof.
  assert (Hnd : NoDup (map Patient.id (patients db_alice_bob))).
  { vm_compute. repeat constructor; cbn [In]; intros H;
      repeat (destruct H as [H|H]; [discriminate H|]); exact H. }
  assert (H1 : 1 <> 0) by lia.
  assert (H2 : 2 <> 1) by lia.
  assert (Hpos : get_queue_position db_alice_bob 2 = Some 2)
    by (vm_compute; reflexivity).
  split; [exact Hpos|].
  apply (proj1 (positions_after_departure db_alice_bob 1 2 2
                  (alice_row Waiting) bob_row Hnd H1 eq_refl eq_refl H2
                  eq_refl Hpos)).
Defined.

(** ** Patient status *)

(** X14: GET [/api/patient_status/<id>] answers 404 when the id is one
    that SQLite can bind and no record carries it; when a record carries
    the id it answers 200 with the name, department, queue number
    and status of the record and the crowd level of the number waiting in
    its department; the position and waiting time are both 0 for a served
    record, null and 0 for a cancelled one, and for a waiting one the
    position of [get_queue_position], at least 1, with its waiting
    time. *)
Theorem patient_status_api_cases (db : DB) (patient_id : Z) :
  (sqlite_integer patient_id = true ->
   (forall p, In p (patients db) -> Patient.id p <> patient_id) ->
   patient_status_api db patient_id = not_found)
  /\ (forall p,
         Patient_get db patient_id = Some p ->
         let resp := patient_status_api db patient_id in
         let crowd :=
           get_crowd_level
             (count (Patient_filter_by db (Patient.department p) Waiting)) in
         status_code resp = 200
         /\ json_get "name" (body resp) = Some (JStr (Patient.name p))
         /\ json_get "department" (body resp)
            = Some (JStr (Patient.department p))
         /\ json_int "queue_number" (body resp)
            = Some (Patient.queue_number p)
         /\ json_get "status" (body resp)
            = Some (json_of_status (Patient.status p))
         /\ json_get "crowd_level" (body resp) = Some (JStr (level crowd))
         /\ json_get "crowd_color" (body resp) = Some (JStr (color crowd))
         /\ match Patient.status p with
            | Served =>
                json_get "position" (body resp) = Some (JInt 0)
                /\ json_get "waiting_time" (body resp) = Some (JInt 0)
            | Cancelled =>
                json_get "position" (body resp) = Some JNull
                /\ json_get "waiting_time" (body resp) = Some (JInt 0)
            | Waiting =>
                exists pos,
                  get_queue_position db patient_id = Some pos
                  /\ 1 <= pos
                  /\ json_get "position" (body resp) = Some (JInt pos)
                  /\ json_get "waiting_time" (body resp)
                     = Some (JInt (calculate_waiting_time
                                     db (Patient.department p) pos))
            end).
Proof.
  split.
  - intros _ Hnone. unfold patient_status_api.
    destruct (Patient_get db patient_id) as [p|] eqn:Hp; [|reflexivity].
    apply Patient_get_found in Hp. destruct Hp as [Hin Hid].
    elim (Hnone p Hin Hid).
  - intros p Hp. cbv zeta. unfold patient_status_api. rewrite Hp.
    destruct (Patient.status p) eqn:Hs; cbn [Status_eqb].
    + assert (Hq : exists pos, get_queue_position db patient_id = Some pos).
      { unfold get_queue_position. rewrite Hp, Hs. eexists; reflexivity. }
      destruct Hq as [pos Hpos]. rewrite Hpos.
      destruct (queue_position_bounds db patient_id pos Hpos)
        as [p' [_ [_ [Hge _]]]].
      destruct (Z.eqb_spec pos 0) as [H0|_]; [lia|].
      repeat split. exists pos. repeat split; assumption.
    + repeat split.
    + assert (Hq : get_queue_position db patient_id = None).
      { unfold get_queue_position. rewrite Hp, Hs. reflexivity. }
      rewrite Hq. repeat split.
Qed.

(** ** Department status and hospital overview *)

Lemma sum_map_add {A : Type} (F G : A -> Z) (l : list A) :
  fold_right Z.add 0 (map (fun x => F x + G x) l)
  = fold_right Z.add 0 (map F l) + fold_right Z.add 0 (map G l).
Proof. induction l as [|x l IH]; cbn [map fold_right]; lia. Qed.

Lemma sum_indicator_unknown (n : pystr) (ds : list Department.t) :
  ~ In n (map Department.name ds) ->
  fold_right Z.add 0
    (map (fun d => if PyStr.eqb n (Department.name d) then 1 else 0) ds) = 0.
Proof.
  induction ds as [|d ds IH]; cbn [map fold_right In]; [reflexivity|].
  intros H. rewrite IH by tauto.
  destruct (PyStr.eqb n (Department.name d)) eqn:He; [|reflexivity].
  apply PyStrFacts.eqb_eq in He. elim H. left. congruence.
Qed.

Lemma sum_indicator_known (n : pystr) (ds : list Department.t) :
  NoDup (map Department.name ds) ->
  In n (map Department.name ds) ->
  fold_right Z.add 0
    (map (fun d => if PyStr.eqb n (Department.name d) then 1 else 0) ds) = 1.
Proof.
  induction ds as [|d ds IH]; cbn [map fold_right In]; [tauto|].
  intros Hnd Hin. inversion Hnd as [|? ? Hnot Hnd']; subst.
  destruct (PyStr.eqb n (Department.name d)) eqn:He.
  - apply PyStrFacts.eqb_eq in He. subst n.
    rewrite (sum_indicator_unknown _ _ Hnot). reflexivity.
  - destruct Hin as [Hin|Hin].
    + subst n. rewrite PyStrFacts.eqb_refl in He. discriminate.
    + rewrite (IH Hnd' Hin). reflexivity.
Qed.

(** Over a catalog with unique names that holds the department of every
    record, the waiting counts of the departments add up to the number of
    waiting records. *)
Lemma queue_counts_sum (ds : list Department.t) (rows : list Patient.t) :
  NoDup (map Department.name ds) ->
  Forall (fun p => exists d, In d ds
                             /\ Department.name d = Patient.department p)
         rows ->
  fold_right Z.add 0
    (map (fun d =>
            count (filter (fun p => PyStr.eqb (Patient.department p)
                                              (Department.name d)
                                    && Status_eqb (Patient.status p) Waiting)
                          rows)) ds)
  = count (filter (fun p => Status_eqb (Patient.status p) Waiting) rows).
Proof.
  intros Hnd Hk. unfold count.
  induction Hk as [|p rows [d0 [Hd0 Hname]] _ IH]; cbn [filter].
  - cbn [List.length]. induction ds as [|d ds IHd]; [reflexivity|].
    cbn [map fold_right]. inversion Hnd; subst. rewrite IHd by assumption.
    reflexivity.
  - rewrite (map_ext
               (fun d => Z.of_nat
                           (List.length
                              (if PyStr.eqb (Patient.department p)
                                            (Department.name d)
                                  && Status_eqb (Patient.status p) Waiting
                               then p :: filter _ rows
                               else filter _ rows)))
               (fun d =>
                  (if PyStr.eqb (Patient.department p) (Department.name d)
                   then if Status_eqb (Patient.status p) Waiting
                        then 1 else 0
                   else 0)
                  + Z.of_nat
                      (List.length
                         (filter (fun q =>
                                    PyStr.eqb (Patient.department q)
                                              (Department.name d)
                                    && Status_eqb (Patient.status q) Waiting)
                                 rows)))).
    2:{ intros d. destruct (PyStr.eqb _ _), (Status_eqb _ _);
          cbn [andb List.length]; lia. }
    rewrite sum_map_add, IH.
    destruct (Status_eqb (Patient.status p) Waiting); cbn [List.length].
    + rewrite sum_indicator_known; [lia|exact Hnd|].
      rewrite <- Hname. apply in_map, Hd0.
    + replace (fold_right Z.add 0 (map (fun d : Department.t =>
                 if PyStr.eqb (Patient.department p) (Department.name d)
                 then 0 else 0) ds)) with 0; [lia|].
      clear. induction ds as [|d ds IHd]; cbn [map fold_right];
        [reflexivity|].
      rewrite <- IHd. destruct (PyStr.eqb _ _); reflexivity.
Qed.

Section DepartmentStatusFacts.

Variable float : Type.
Variable rounded_half_product : Z -> Z -> float.

(** X15: GET [/api/department_status] lists one row per department of the
    catalog, in catalog order, with its name and average service time,
    the number of records waiting in it and the crowd level and color of
    that number; a department with nobody waiting reports the integer 0
    as average waiting time.  Over a catalog with unique names that holds
    the department of every record (as after every history of requests
    from an empty patient table), the queue counts add up to the
    [total_waiting] of the hospital overview. *)
Theorem department_status_rows (db : DB) :
  map (row_name float) (department_status float rounded_half_product db)
  = map Department.name (departments db)
  /\ map (row_average_service_time float) (department_status float rounded_half_product db)
     = map Department.average_service_time (departments db)
  /\ Forall
       (fun row =>
          row_queue_count float row
          = count (Patient_filter_by db (row_name float row) Waiting)
          /\ mkCrowd (row_crowd_level float row) (row_crowd_color float row)
             = get_crowd_level (row_queue_count float row)
          /\ (row_queue_count float row = 0 ->
              row_avg_waiting_time float row = Int float 0))
       (department_status float rounded_half_product db)
  /\ (NoDup (map Department.name (departments db)) ->
      departments_known db ->
      json_int "total_waiting" (body (hospital_overview db))
      = Some (fold_right Z.add 0
                (map (row_queue_count float) (department_status float rounded_half_product db)))).
Proof.
  unfold department_status.
  repeat apply conj.
  - rewrite map_map. reflexivity.
  - rewrite map_map. reflexivity.
  - apply Forall_map. apply Forall_forall. intros d _.
    unfold department_row. cbn [row_queue_count row_name row_crowd_level
                                 row_crowd_color row_avg_waiting_time].
    repeat split.
    + destruct (get_crowd_level _); reflexivity.
    + intros ->. cbn [Z.ltb Z.compare]. rewrite Z.mul_0_r. reflexivity.
  - intros Hnd Hk. rewrite map_map.
    unfold department_row. cbn [row_queue_count].
    unfold Patient_filter_by.
    rewrite (queue_counts_sum (departments db) (patients db) Hnd Hk).
    reflexivity.
Qed.

End DepartmentStatusFacts.

Lemma count_filter_update (f : Patient.t -> bool) (s : Status) (db : DB)
  (a : Patient.t) :
  NoDup (map Patient.id (patients db)) ->
  In a (patients db) ->
  count (filter f (patients (update_status db (Patient.id a) s)))
  = count (filter f (patients db))
    + (if f (Patient.set_status s a) then 1 else 0)
    - (if f a then 1 else 0).
Proof.
  intros Hnd Hin. unfold count, update_status; cbn [patients].
  pose proof (filter_update_length f s (patients db) a Hnd Hin) as H.
  destruct (f a), (f (Patient.set_status s a)); lia.
Qed.

(** X16: the totals of the hospital overview follow the requests: an
    accepted registration adds one to [total_waiting]; with unique ids, a
    waiting patient who leaves the queue takes one from [total_waiting],
    and a waiting patient who is marked served moves from [total_waiting]
    to [total_served], so that [total_patients] stays. *)
Theorem hospital_overview_follows (db : DB) :
  let waiting db := count (Patient_filter_by_status db Waiting) in
  let served db := count (Patient_filter_by_status db Served) in
  (forall now form,
      status_code (snd (register db now form)) = 200 ->
      waiting (fst (register db now form)) = waiting db + 1
      /\ served (fst (register db now form)) = served db)
  /\ (forall pid a,
         NoDup (map Patient.id (patients db)) ->
         pid <> 0 ->
         Patient_get db pid = Some a ->
         Patient.status a = Waiting ->
         (waiting (fst (leave_queue db (Some pid))) = waiting db - 1
          /\ served (fst (leave_queue db (Some pid))) = served db)
         /\ (waiting (fst (mark_served db (Some pid))) = waiting db - 1
             /\ served (fst (mark_served db (Some pid))) = served db + 1))
  /\ json_int "total_waiting" (body (hospital_overview db))
     = Some (waiting db)
  /\ json_int "total_served" (body (hospital_overview db))
     = Some (served db)
  /\ json_int "total_patients" (body (hospital_overview db))
     = Some (waiting db + served db).
Proof.
  cbv zeta. unfold Patient_filter_by_status.
  split; [|split; [|repeat split]].
  - intros now form H.
    destruct (register_200 db now form H) as [Hn [Hd [d Hf]]].
    rewrite (register_passed db now form d Hn Hd Hf). cbn [fst patients].
    unfold count. rewrite !filter_app, !length_app.
    cbn [filter Patient.status Status_eqb List.length]. lia.
  - intros pid a Hnd Hpid Ha Hs.
    destruct (Patient_get_found db pid a Ha) as [Hin Hid]. subst pid.
    unfold leave_queue, mark_served.
    rewrite (truthy_nonzero _ Hpid), Ha, Hs. cbn [Status_eqb negb fst].
    rewrite !(count_filter_update _ _ db a Hnd Hin).
    cbn [Patient.set_status Patient.status Status_eqb]. rewrite Hs.
    cbn [Status_eqb]. lia.
Qed.

(** X17: the patient of an accepted registration is found again under
    the id of the answer: GET [/api/patient_status/<id>] on the new
    database answers 200 with the stripped name and department, the
    status waiting, and the queue number, position and waiting time that
    the registration answered. *)
Theorem register_then_status (db : DB) (now : Z) (form : Form) :
  status_code (snd (register db now form)) = 200 ->
  let resp := snd (register db now form) in
  let id := next_rowid (map Patient.id (patients db)) in
  let status_resp := patient_status_api (fst (register db now form)) id in
  json_int "patient_id" (body resp) = Some id
  /\ status_code status_resp = 200
  /\ json_get "name" (body status_resp)
     = Some (JStr (PyStr.strip (form_get (form_name form) [])))
  /\ json_get "department" (body status_resp)
     = Some (JStr (PyStr.strip (form_get (form_department form) [])))
  /\ json_get "status" (body status_resp) = Some (JStr (lit "waiting"))
  /\ json_get "queue_number" (body status_resp)
     = json_get "queue_number" (body resp)
  /\ json_get "position" (body status_resp) = json_get "position" (body resp)
  /\ json_get "waiting_time" (body status_resp)
     = json_get "waiting_time" (body resp).
Proof.
  intros H. destruct (register_200 db now form H) as [Hn [Hd [d Hf]]].
  cbv zeta. rewrite (register_passed db now form d Hn Hd Hf).
  cbn [fst snd body].
  set (p := Patient.mk _ _ _ _ _ _).
  set (db' := mkDB (departments db) (patients db ++ [p])).
  assert (Hget : Patient_get db' (Patient.id p) = Some p)
    by (apply (Patient_get_added db p); reflexivity).
  assert (Hpos : get_queue_position db' (Patient.id p)
                 = Some (count (Patient_filter_by
                                  db (Patient.department p) Waiting) + 1))
    by (apply (get_queue_position_added db p); reflexivity).
  change (next_rowid (map Patient.id (patients db))) with (Patient.id p).
  unfold patient_status_api. rewrite Hget, Hpos.
  cbn [Patient.status p Status_eqb].
  assert (Hz : (count (Patient_filter_by db (Patient.department p) Waiting)
                + 1 =? 0) = false)
    by (apply Z.eqb_neq; unfold count; lia).
  rewrite Hz.
  repeat split.
Qed.

Lemma register_then_status_witness :
  json_get "position"
    (body (patient_status_api (fst (register db_alice 1 bob)) 2))
  = Some (JInt 2).
Proof.
  assert (H : status_code (snd (register db_alice 1 bob)) = 200)
    by (vm_compute; reflexivity).
  pose proof (register_then_status db_alice 1 bob H) as Hr.
  cbv zeta in Hr.
  destruct Hr as [_ [_ [_ [_ [_ [_ [Hp _]]]]]]].
  etransitivity; [exact Hp|]. vm_compute. reflexivity.
Defined.
